(** * api.py: a Flask relay between customers, Gemini FileSearch and WhatsApp

    A shallow embedding of [api.py] and the properties of its four
    request handlers ([/query], [/clear], [GET /webhook], [POST /webhook]).

    Python values are the ones [json] produces; dictionaries are finite
    maps; the module-level dictionary [conversations], the Flask [session]
    and the calls that leave the process (the Gemini client, the delivery
    function and [requests.post]) are one explicit state that every
    handler threads; Python exceptions are an error result.  What is
    written on standard output ([print], [traceback.print_exc]) is not
    modelled. *)

From Stdlib Require Import ZArith String List Bool.
From Stdlib Require Import Floats.SpecFloat.
From stdpp Require Import gmap strings list fin_maps.

Local Open Scope string_scope.
Local Open Scope Z_scope.

#[local] Set Warnings "-register-all".

(** ** Python values *)

(** The values [json.loads] builds: [None], [bool], [int], [float]
    (a binary64), [str], [list] and [dict] with string keys.  Strings are
    kept as their UTF-8 bytes. *)
Inductive pyval :=
| PNone
| PBool (b : bool)
| PInt (z : Z)
| PFloat (f : spec_float)
| PStr (s : string)
| PList (l : list pyval)
| PDict (d : gmap string pyval).

(** [bool(v)], the test behind [not v] and [a or b]. *)
Definition truthy (v : pyval) : bool :=
  match v with
  | PNone => false
  | PBool b => b
  | PInt z => negb (z =? 0)
  | PFloat (S754_zero _) => false
  | PFloat _ => true
  | PStr s => negb (String.length s =? 0)%nat
  | PList l => negb (length l =? 0)%nat
  | PDict d => negb (size d =? 0)%nat
  end.

(** [v == s] for a string literal [s]: only an equal [str] compares equal. *)
Definition py_eq_str (v : pyval) (s : string) : bool :=
  match v with
  | PStr s' => String.eqb s' s
  | _ => false
  end.

(** [needle in s] on two [str]. *)
Fixpoint is_substring (needle s : string) : bool :=
  String.prefix needle s ||
  match s with
  | EmptyString => false
  | String _ s' => is_substring needle s'
  end.

(** ** Exceptions *)

Inductive exn_class :=
| TypeError
| AttributeError
| KeyError
| ValidationError
| ExternalError.

(** An exception: its class and [str(e)].  [ExternalError] stands for
    whatever the Gemini client or [requests] raises.  Only what
    [except Exception] catches is modelled. *)
Record exn := Exn { exn_class_of : exn_class; exn_str : string }.

Inductive Result (A : Type) :=
| Ok (a : A)
| Raise (e : exn).
Arguments Ok {A} a.
Arguments Raise {A} e.

(** ** Operations of the interpreter on these values *)

(** [key in v]: key membership on a [dict], element membership on a
    [list], substring on a [str]; the other values are not containers. *)
Definition py_in (key : string) (v : pyval) : Result bool :=
  match v with
  | PDict d => Ok (bool_decide (is_Some (d !! key)))
  | PList l => Ok (existsb (fun x => py_eq_str x key) l)
  | PStr s => Ok (is_substring key s)
  | _ => Raise (Exn TypeError "argument is not iterable")
  end.

(** [v.get(key, dflt)]: only a [dict] has the method. *)
Definition py_get (v : pyval) (key : string) (dflt : pyval) : Result pyval :=
  match v with
  | PDict d => Ok (default dflt (d !! key))
  | _ => Raise (Exn AttributeError "object has no attribute 'get'")
  end.

(** [v[key]] with a string key. *)
Definition py_getitem (v : pyval) (key : string) : Result pyval :=
  match v with
  | PDict d =>
      match d !! key with
      | Some x => Ok x
      | None => Raise (Exn KeyError key)
      end
  | _ => Raise (Exn TypeError "indices must be integers or object is not subscriptable")
  end.

(** The elements a [for] loop visits.  A [dict] yields its keys and a
    [str] its characters, all of them [str]: the loops of the program
    call [.get] on the first of them and stop there, so the order of the
    keys plays no role. *)
Definition py_iter (v : pyval) : Result (list pyval) :=
  match v with
  | PList l => Ok l
  | PDict d => Ok (map (fun kv => PStr (fst kv)) (map_to_list d))
  | PStr s => Ok (map (fun c => PStr (String c EmptyString)) (list_ascii_of_string s))
  | _ => Raise (Exn TypeError "object is not iterable")
  end.

(** ** Dictionary keys *)

(** A hashable value up to Python's [==]: [True == 1 == 1.0] are one key,
    a [float] that is no integer is kept by sign, odd mantissa and
    exponent. *)
Inductive pykey :=
| KNone
| KInt (z : Z)
| KFrac (s : bool) (m : positive) (e : Z)
| KInf (s : bool)
| KNaN
| KStr (s : string).

Fixpoint strip_twos (m : positive) (e : Z) : positive * Z :=
  match m with
  | xO m' => strip_twos m' (e + 1)
  | _ => (m, e)
  end.

Definition float_key (f : spec_float) : pykey :=
  match f with
  | S754_zero _ => KInt 0
  | S754_infinity s => KInf s
  | S754_nan => KNaN
  | S754_finite s m e =>
      let '(m', e') := strip_twos m e in
      if 0 <=? e'
      then KInt ((if s then -1 else 1) * Z.pos m' * 2 ^ e')
      else KFrac s m' e'
  end.

(** The key a value is stored under; [list] and [dict] are unhashable. *)
Definition py_key (v : pyval) : Result pykey :=
  match v with
  | PNone => Ok KNone
  | PBool b => Ok (KInt (if b then 1 else 0))
  | PInt z => Ok (KInt z)
  | PFloat f => Ok (float_key f)
  | PStr s => Ok (KStr s)
  | PList _ | PDict _ => Raise (Exn TypeError "unhashable type")
  end.

#[global] Instance pykey_eq_dec : EqDecision pykey.
Proof. solve_decision. Defined.

Definition pykey_enc (k : pykey) : unit + Z + (bool * positive * Z) + bool + unit + string :=
  match k with
  | KNone => inl (inl (inl (inl (inl tt))))
  | KInt z => inl (inl (inl (inl (inr z))))
  | KFrac s m e => inl (inl (inl (inr (s, m, e))))
  | KInf s => inl (inl (inr s))
  | KNaN => inl (inr tt)
  | KStr s => inr s
  end.

Definition pykey_dec (x : unit + Z + (bool * positive * Z) + bool + unit + string) : pykey :=
  match x with
  | inl (inl (inl (inl (inl _)))) => KNone
  | inl (inl (inl (inl (inr z)))) => KInt z
  | inl (inl (inl (inr (s, m, e)))) => KFrac s m e
  | inl (inl (inr s)) => KInf s
  | inl (inr _) => KNaN
  | inr s => KStr s
  end.

#[global] Program Instance pykey_countable : Countable pykey :=
  inj_countable' pykey_enc pykey_dec _.
Next Obligation. by intros []. Qed.

(** ** Data of the program *)

(** One entry of a history: the dict [{'role': ..., 'text': ...}]. *)
Record Turn := mkTurn { role : string; text : pyval }.

(** [types.Part(text=...)] and [types.Content(role=..., parts=[...])]. *)
Record Part := mkPart { part_text : pyval }.
Record Content := mkContent { content_role : string; content_parts : list Part }.

(** The arguments of [client.models.generate_content]: the model, the
    contents, and in the config the system instruction and the store
    names of the FileSearch tool. *)
Record GenRequest := mkGenRequest {
  gen_model : string;
  gen_contents : list Content;
  gen_system_instruction : option string;
  gen_store_names : list string
}.

(** The arguments of [requests.post]. *)
Record HttpPost := mkHttpPost {
  post_url : string;
  post_headers : gmap string string;
  post_json : pyval;
  post_timeout : Z
}.

(** What [search_file_store] gets from the Gemini client: [response.text],
    or an exception. *)
Inductive GenOutcome :=
| GenText (t : pyval)
| GenRaises (e : exn).

(** What [requests.post] and [resp.json()] give: the decoded body, a
    response whose body is not JSON (status code and text), or an
    exception of the transport. *)
Inductive PostOutcome :=
| PostJson (j : pyval)
| PostNotJson (status_code : Z) (body : string)
| PostRaises (e : exn).

(** The calls that leave the handlers, in the order they are made. *)
Inductive Event :=
| EvGenerate (req : GenRequest)
| EvDeliver (to_number message : pyval)
| EvPost (post : HttpPost).

(** The state a request handler runs in: the Flask [session] of the
    client, the dictionary [conversations], and the calls made so far. *)
Record State := mkState {
  session : gmap string (list Turn);
  conversations : gmap pykey (list Turn);
  trace : list Event
}.

Definition set_session (f : gmap string (list Turn) -> gmap string (list Turn))
    (st : State) : State :=
  mkState (f (session st)) (conversations st) (trace st).

Definition set_conversations (f : gmap pykey (list Turn) -> gmap pykey (list Turn))
    (st : State) : State :=
  mkState (session st) (f (conversations st)) (trace st).

Definition emit (ev : Event) (st : State) : State :=
  mkState (session st) (conversations st) (trace st ++ [ev]).

(** What a view function returns: [(body, status)].  A [jsonify]ed dict
    is the dict, a plain string the string. *)
Record Reply := mkReply { body : pyval; status : Z }.

(** ** The monad of handlers: state, and exceptions that keep the state *)

Definition M (A : Type) : Type := State -> Result A * State.

Definition ret {A} (a : A) : M A := fun st => (Ok a, st).

Definition raise {A} (e : exn) : M A := fun st => (Raise e, st).

Definition bind {A B} (m : M A) (k : A -> M B) : M B :=
  fun st =>
    match m st with
    | (Ok a, st') => k a st'
    | (Raise e, st') => (Raise e, st')
    end.

Definition lift {A} (r : Result A) : M A := fun st => (r, st).

Definition gets {A} (f : State -> A) : M A := fun st => (Ok (f st), st).

Definition modify (f : State -> State) : M unit := fun st => (Ok tt, f st).

(** [try: m except Exception as e: handler e]. *)
Definition try_except {A} (m : M A) (handler : exn -> M A) : M A :=
  fun st =>
    match m st with
    | (Ok a, st') => (Ok a, st')
    | (Raise e, st') => handler e st'
    end.

Declare Scope py_scope.
Delimit Scope py_scope with py.
Notation "x <- m ;; k" := (bind m (fun x => k))
  (at level 100, m at next level, right associativity) : py_scope.
Notation "m ;;; k" := (bind m (fun _ => k))
  (at level 100, right associativity) : py_scope.
Local Open Scope py_scope.

(** [for x in l: body x]. *)
Fixpoint for_each {A} (l : list A) (body : A -> M unit) : M unit :=
  match l with
  | [] => ret tt
  | x :: l' => body x ;;; for_each l' body
  end.

(** [SYSTEM_PROMPT_RESERVAS]. *)
Definition SYSTEM_PROMPT_RESERVAS : string :=
  "Eres un amable y profesional agente de reservas del hotel. " +:+
  "Tu objetivo es responder todas las preguntas de los clientes de manera cortés y útil, " +:+
  "utilizando exclusivamente la información proporcionada por la base de conocimiento (FileSearch). " +:+
  "Céntrate en información de servicios, disponibilidad, y precios del hotel. " +:+
  "Cuando no encuentres un servicio en la documentacion, indica claramente que aun no se cuenta con ese servicio, no menciones que no encuentras ese servicio en la documentacion." +:+
  "Siempre mantén un tono de servicio al cliente y anima al usuario a hacer una reserva o continuar su consulta.".

Definition APOLOGY : string :=
  "Lo siento, ocurrió un problema procesando tu consulta. Intenta nuevamente más tarde.".

(** ** Reading replies, states and payloads *)

(** A field of a JSON reply. *)
Definition reply_field (r : Reply) (key : string) : option pyval :=
  match body r with
  | PDict b => b !! key
  | _ => None
  end.

(** [session.get('chat_history', [])]. *)
Definition chat_history (st : State) : list Turn :=
  default [] (session st !! "chat_history").

(** The calls of the delivery function found in a trace, as
    [(to_number, message)]. *)
Fixpoint deliveries (tr : list Event) : list (pyval * pyval) :=
  match tr with
  | [] => []
  | EvDeliver to_number message :: tr' => (to_number, message) :: deliveries tr'
  | _ :: tr' => deliveries tr'
  end.

(** The calls of the generation provider found in a trace. *)
Fixpoint generations (tr : list Event) : list GenRequest :=
  match tr with
  | [] => []
  | EvGenerate req :: tr' => req :: generations tr'
  | _ :: tr' => generations tr'
  end.

(** The message of an event envelope that has one entry, with one
    change, whose value has one message. *)
Definition only_message (payload : pyval) : option pyval :=
  match payload with
  | PDict p =>
      match p !! "entry" with
      | Some (PList [PDict entry]) =>
          match entry !! "changes" with
          | Some (PList [PDict change]) =>
              match change !! "value" with
              | Some (PDict value) =>
                  match value !! "messages" with
                  | Some (PList [message]) => Some message
                  | _ => None
                  end
              | _ => None
              end
          | _ => None
          end
      | _ => None
      end
  | _ => None
  end.

(** The sender and the body of a text message: [from] is a non-empty
    string, [type] is ["text"], [text] is an object; the body is [""]
    when the key is missing. *)
Definition text_message (message : pyval) : option (string * pyval) :=
  match message with
  | PDict m =>
      match m !! "from", m !! "type", m !! "text" with
      | Some (PStr sender), Some (PStr type), Some (PDict t) =>
          if negb (String.length sender =? 0)%nat && String.eqb type "text"
          then Some (sender, default (PStr "") (t !! "body"))
          else None
      | _, _, _ => None
      end
  | _ => None
  end.

(** The body of a [/query] request is absent ([request.json] is [None])
    or is an object without the key [query]. *)
Definition query_absent (data : pyval) : bool :=
  match data with
  | PNone => true
  | PDict d =>
      match d !! "query" with
      | None => true
      | Some _ => false
      end
  | _ => false
  end.

(** The body has no non-empty [query] field: it is absent, or an object
    in which the key is missing or holds the empty string. *)
Definition no_nonempty_query (data : pyval) : bool :=
  match data with
  | PNone => true
  | PDict d =>
      match d !! "query" with
      | None => true
      | Some (PStr s) => (String.length s =? 0)%nat
      | Some _ => false
      end
  | _ => false
  end.

(** ** Reading more of a state

    What the properties of the handlers beyond single requests speak
    about: HTTP calls in a trace, envelopes with several messages,
    histories made of pairs, and what a computation leaves related. *)

(** The HTTP calls found in a trace. *)
Fixpoint posts (tr : list Event) : list HttpPost :=
  match tr with
  | [] => []
  | EvPost post :: tr' => post :: posts tr'
  | _ :: tr' => posts tr'
  end.

(** The messages of an event envelope that has one entry with one change. *)
Definition envelope_messages (payload : pyval) : option (list pyval) :=
  match payload with
  | PDict p =>
      match p !! "entry" with
      | Some (PList [PDict entry]) =>
          match entry !! "changes" with
          | Some (PList [PDict change]) =>
              match change !! "value" with
              | Some (PDict value) =>
                  match value !! "messages" with
                  | Some (PList messages) => Some messages
                  | _ => None
                  end
              | _ => None
              end
          | _ => None
          end
      | _ => None
      end
  | _ => None
  end.

(** A history made of pairs: a turn of role ["user"], then one of role
    ["model"], and so on. *)
Fixpoint turn_pairs (history : list Turn) : bool :=
  match history with
  | [] => true
  | user_turn :: model_turn :: rest =>
      String.eqb (role user_turn) "user" && String.eqb (role model_turn) "model" &&
      turn_pairs rest
  | _ => false
  end.

(** Every history the state keeps, in the session and per sender, is
    made of pairs. *)
Definition histories_paired (st : State) : Prop :=
  turn_pairs (chat_history st) = true /\
  forall key history, conversations st !! key = Some history -> turn_pairs history = true.

(** A message the webhook skips: an object whose [from] is missing or
    falsy. *)
Definition no_sender (message : pyval) : bool :=
  match message with
  | PDict m => negb (truthy (default PNone (m !! "from")))
  | _ => false
  end.

(** A message with a sender and the type ["text"] whose [text] is
    missing or is no object. *)
Definition lacks_text (message : pyval) : bool :=
  match message with
  | PDict m =>
      truthy (default PNone (m !! "from")) &&
      py_eq_str (default PNone (m !! "type")) "text" &&
      match m !! "text" with
      | Some (PDict _) => false
      | _ => true
      end
  | _ => false
  end.

(** The sender and the type of a message that has a non-empty string as
    sender and a type other than ["text"]. *)
Definition other_message (message : pyval) : option (string * pyval) :=
  match message with
  | PDict m =>
      match m !! "from" with
      | Some (PStr sender) =>
          if negb (String.length sender =? 0)%nat &&
             negb (py_eq_str (default PNone (m !! "type")) "text")
          then Some (sender, default PNone (m !! "type"))
          else None
      | _ => None
      end
  | _ => None
  end.

(** [m] leaves every state related by [R] to the state it ends in,
    whether it returns or raises. *)
Definition preserves {A} (R : State -> State -> Prop) (m : M A) : Prop :=
  forall st, R st (m st).2.

(** The calls of the provider and of the delivery function grow by the
    same number from [st] to [st']. *)
Definition calls_balanced (st st' : State) : Prop :=
  (length (generations (trace st')) + length (deliveries (trace st)) =
   length (generations (trace st)) + length (deliveries (trace st')))%nat.

(** ** A sample environment

    [types.Part] takes a [str] or [None]; a provider that answers, one
    that fails; a messaging endpoint that answers an empty object. *)

Definition sample_Part_accepts (t : pyval) : bool :=
  match t with
  | PNone | PStr _ => true
  | _ => false
  end.

Definition sample_generate_ok : list Event -> GenRequest -> GenOutcome :=
  fun _ _ => GenText (PStr "Hola").

Definition sample_generate_fails : list Event -> GenRequest -> GenOutcome :=
  fun _ _ => GenRaises (Exn ExternalError "429 RESOURCE_EXHAUSTED").

Definition sample_requests_post : list Event -> HttpPost -> PostOutcome :=
  fun _ _ => PostJson (PDict ∅).

Definition sample_py_format (v : pyval) : string :=
  match v with
  | PStr s => s
  | _ => "None"
  end.

(** The defaults of [FILE_SEARCH_STORE_ID] and [WHATSAPP_VERIFY_TOKEN],
    and a token and a phone id. *)
Definition sample_store_id : string := "hotelknowledgebasestore2-g76jm0ml54f0".
Definition sample_verify_token : string := "verify123".
Definition sample_token : string := "EAAGtoken".
Definition sample_phone_id : string := "105500000000001".

Definition empty_state : State := mkState ∅ ∅ [].

Definition sample_turns : list Turn :=
  [mkTurn "user" (PStr "Hay piscina?"); mkTurn "model" (PStr "Si, abierta todo el dia.")].

Definition sample_state : State :=
  mkState {[ "chat_history" := sample_turns ]} {[ KStr "51999" := sample_turns ]} [].

Definition sample_message : pyval :=
  PDict {[ "from" := PStr "51999"; "type" := PStr "text";
           "text" := PDict {[ "body" := PStr "Precio?" ]} ]}.

Definition sample_envelope : pyval :=
  PDict {[ "entry" := PList [PDict {[ "changes" := PList [PDict {[ "value" :=
    PDict {[ "messages" := PList [sample_message] ]} ]}] ]}] ]}.

(** An envelope for a list of messages; a sticker, a message without
    sender, a text message that lacks its [text]. *)
Definition sample_envelope_of (messages : list pyval) : pyval :=
  PDict {[ "entry" := PList [PDict {[ "changes" := PList [PDict {[ "value" :=
    PDict {[ "messages" := PList messages ]} ]}] ]}] ]}.

Definition sample_sticker : pyval :=
  PDict {[ "from" := PStr "51999"; "type" := PStr "sticker" ]}.

Definition sample_status_update : pyval :=
  PDict {[ "type" := PStr "text"; "text" := PDict {[ "body" := PStr "Precio?" ]} ]}.

Definition sample_broken_text : pyval :=
  PDict {[ "from" := PStr "51888"; "type" := PStr "text" ]}.

Definition sample_numeric_text : pyval :=
  PDict {[ "from" := PStr "51999"; "type" := PStr "text";
           "text" := PDict {[ "body" := PInt 42 ]} ]}.

(** ** The program *)

Section Api.

(** Configuration read from the environment when the module loads. *)
Variable FILE_SEARCH_STORE_ID : string.
Variable WHATSAPP_TOKEN : string.
Variable WHATSAPP_VERIFY_TOKEN : string.
Variable WHATSAPP_PHONE_ID : string.

(** What lies outside [api.py].  [Part_accepts t]: the validation of
    [types.Part(text=t)] passes.  [generate_content tr req]: what the
    Gemini client answers to [req] after the calls [tr].
    [requests_post tr p]: the same for [requests.post].
    [py_format v]: the text an f-string puts for [{v}]. *)
Variable Part_accepts : pyval -> bool.
Variable generate_content : list Event -> GenRequest -> GenOutcome.
Variable requests_post : list Event -> HttpPost -> PostOutcome.
Variable py_format : pyval -> string.

(** [types.Part(text=t)]. *)
Definition new_Part (t : pyval) : M Part :=
  if Part_accepts t then ret (mkPart t)
  else raise (Exn ValidationError "validation error for Part").

(** [search_file_store]: one call of the Gemini client.  An exception
    raised anywhere in its body is an outcome of that call. *)
Definition search_file_store (contents : list Content) (store_names : list string)
    (model : string) (system_instruction : option string) : M pyval :=
  fun st =>
    let req := mkGenRequest model contents system_instruction store_names in
    match generate_content (trace st) req with
    | GenText t => (Ok t, emit (EvGenerate req) st)
    | GenRaises e => (Raise e, emit (EvGenerate req) st)
    end.

(** The loop [for message in history_json: full_contents.append(...)]. *)
Fixpoint append_history (history_json : list Turn) (full_contents : list Content)
    : M (list Content) :=
  match history_json with
  | [] => ret full_contents
  | message :: rest =>
      part <- new_Part (text message) ;;
      append_history rest (full_contents ++ [mkContent (role message) [part]])%list
  end.

(** The per-sender conversation flow: the history of [sender_id] in
    [conversations], one generation call, and the history grown by the
    pair of turns, or dropped when the call raises. *)
Definition procesar_con_gemini_for_sender (sender_id user_text : pyval) : M pyval :=
  key <- lift (py_key sender_id) ;;
  history_json <- gets (fun st => default [] (conversations st !! key)) ;;
  full_contents <- append_history history_json [] ;;
  user_part <- new_Part user_text ;;
  let full_contents := (full_contents ++ [mkContent "user" [user_part]])%list in
  try_except
    (respuesta <- search_file_store full_contents
                    ["fileSearchStores/" +:+ FILE_SEARCH_STORE_ID]
                    "gemini-2.5-flash" (Some SYSTEM_PROMPT_RESERVAS) ;;
     let new_history :=
       (history_json ++ [mkTurn "user" user_text; mkTurn "model" respuesta])%list in
     modify (set_conversations (insert key new_history)) ;;;
     ret respuesta)
    (fun e =>
       modify (set_conversations (delete key)) ;;;
       ret (PStr APOLOGY)).

(** The delivery function.  Entering it is recorded as [EvDeliver]; it
    never raises, and what it returns is only printed by its caller. *)
Definition enviar_mensaje_whatsapp (to_number message : pyval) : M pyval :=
  modify (emit (EvDeliver to_number message)) ;;;
  if negb (truthy (PStr WHATSAPP_TOKEN)) || negb (truthy (PStr WHATSAPP_PHONE_ID))
  then ret (PDict {[ "error" :=
              PStr "Configuración WhatsApp faltante en variables de entorno." ]})
  else
    let url := "https://graph.facebook.com/v19.0/" +:+ WHATSAPP_PHONE_ID +:+ "/messages" in
    let headers : gmap string string :=
      {[ "Authorization" := "Bearer " +:+ WHATSAPP_TOKEN;
         "Content-Type" := "application/json" ]} in
    let payload :=
      PDict {[ "messaging_product" := PStr "whatsapp";
               "to" := to_number;
               "type" := PStr "text";
               "text" := PDict {[ "body" := message ]} ]} in
    let post := mkHttpPost url headers payload 10 in
    fun st =>
      let st' := emit (EvPost post) st in
      match requests_post (trace st) post with
      | PostJson j => (Ok j, st')
      | PostNotJson code txt =>
          (Ok (PDict {[ "status_code" := PInt code; "text" := PStr txt ]}), st')
      | PostRaises e => (Ok (PDict {[ "error" := PStr (exn_str e) ]}), st')
      end.

(** [POST /query]; [data] is [request.json]. *)
Definition handle_query (data : pyval) : M Reply :=
  missing <- (if negb (truthy data) then ret true
              else found <- lift (py_in "query" data) ;; ret (negb found)) ;;
  if (missing : bool)
  then ret (mkReply (PDict {[ "error" :=
              PStr "Debe enviar un JSON con la clave 'query'." ]}) 400)
  else
    user_query <- lift (py_get data "query" PNone) ;;
    history_json <- gets (fun st => default [] (session st !! "chat_history")) ;;
    full_contents <- append_history history_json [] ;;
    user_part <- new_Part user_query ;;
    let full_contents := (full_contents ++ [mkContent "user" [user_part]])%list in
    try_except
      (gemini_response_text <- search_file_store full_contents
                                 [FILE_SEARCH_STORE_ID]
                                 "gemini-2.5-flash" (Some SYSTEM_PROMPT_RESERVAS) ;;
       let new_history :=
         (history_json ++ [mkTurn "user" user_query;
                           mkTurn "model" gemini_response_text])%list in
       modify (set_session (insert "chat_history" new_history)) ;;;
       ret (mkReply (PDict {[
              "response" := gemini_response_text;
              "agent_role" := PStr "Agente de Reservas del Hotel";
              "status" := PStr "Memoria gestionada por la API (cookie de sesión)" ]})
            200))
      (fun e =>
         modify (set_session (delete "chat_history")) ;;;
         ret (mkReply (PDict {[
                "error" := PStr "Ocurrió un error en la API de Gemini.";
                "details" := PStr (exn_str e) ]})
              500)).

(** [POST /clear]. *)
Definition clear_history : M Reply :=
  modify (set_session (delete "chat_history")) ;;;
  ret (mkReply (PDict {[ "status" :=
         PStr "Historial de conversación limpiado. Nueva sesión iniciada." ]}) 200).

(** [request.args.get(key)]: the first value given for [key]. *)
Fixpoint args_get (args : list (string * string)) (key : string) : option string :=
  match args with
  | [] => None
  | (k, v) :: rest => if String.eqb k key then Some v else args_get rest key
  end.

(** A query parameter as a Python value: [None] when it is absent. *)
Definition opt_str (o : option string) : pyval :=
  match o with
  | Some s => PStr s
  | None => PNone
  end.

(** [GET /webhook]; [args] is [request.args]. *)
Definition whatsapp_verify (args : list (string * string)) : M Reply :=
  let mode := opt_str (args_get args "hub.mode") in
  let token := opt_str (args_get args "hub.verify_token") in
  let challenge := opt_str (args_get args "hub.challenge") in
  if py_eq_str mode "subscribe" && py_eq_str token WHATSAPP_VERIFY_TOKEN
  then ret (mkReply challenge 200)
  else ret (mkReply (PStr "Verification token mismatch") 403).

(** The body of the innermost loop of [whatsapp_webhook]. *)
Definition process_message (message : pyval) : M unit :=
  sender <- lift (py_get message "from" PNone) ;;
  if negb (truthy sender) then ret tt
  else
    mtype <- lift (py_get message "type" PNone) ;;
    user_text <-
      (if py_eq_str mtype "text"
       then t <- lift (py_getitem message "text") ;; lift (py_get t "body" (PStr ""))
       else ret (PStr ("[Tipo de mensaje " +:+ py_format mtype +:+
                       " no soportado por ahora]"))) ;;
    bot_response <- procesar_con_gemini_for_sender sender user_text ;;
    send_result <- enviar_mensaje_whatsapp sender bot_response ;;
    ret tt.

(** [POST /webhook]; [payload] is [request.get_json(silent=True)]. *)
Definition whatsapp_webhook (payload : pyval) : M Reply :=
  if negb (truthy payload) then ret (mkReply (PStr "no payload") 400)
  else
    try_except
      (entries <- lift (py_get payload "entry" (PList [])) ;;
       entries <- lift (py_iter entries) ;;
       for_each entries (fun entry =>
         changes <- lift (py_get entry "changes" (PList [])) ;;
         changes <- lift (py_iter changes) ;;
         for_each changes (fun change =>
           value <- lift (py_get change "value" (PDict ∅)) ;;
           messages <- lift (py_get value "messages" (PList [])) ;;
           let messages := if truthy messages then messages else PList [] in
           messages <- lift (py_iter messages) ;;
           for_each messages process_message)) ;;;
       ret (mkReply (PStr "EVENT_RECEIVED") 200))
      (fun e => ret (mkReply (PStr "error") 500)).

(** *** What the handlers are expected to send *)

Definition turn_content (message : Turn) : Content :=
  mkContent (role message) [mkPart (text message)].

(** The contents for a history and a new user text. *)
Definition contents_of (history : list Turn) (user_text : pyval) : list Content :=
  (map turn_content history ++ [mkContent "user" [mkPart user_text]])%list.

(** Every text of the history passes the validation of [types.Part]. *)
Definition history_accepted (history : list Turn) : bool :=
  forallb (fun message => Part_accepts (text message)) history.

(** The generation request of [/query]. *)
Definition query_request (history : list Turn) (user_query : pyval) : GenRequest :=
  mkGenRequest "gemini-2.5-flash" (contents_of history user_query)
    (Some SYSTEM_PROMPT_RESERVAS) [FILE_SEARCH_STORE_ID].

(** The generation request of the per-sender flow. *)
Definition sender_request (history : list Turn) (user_text : pyval) : GenRequest :=
  mkGenRequest "gemini-2.5-flash" (contents_of history user_text)
    (Some SYSTEM_PROMPT_RESERVAS) ["fileSearchStores/" +:+ FILE_SEARCH_STORE_ID].

(** The HTTP call that delivers [message] to [to_number]. *)
Definition whatsapp_post (to_number message : pyval) : HttpPost :=
  mkHttpPost
    ("https://graph.facebook.com/v19.0/" +:+ WHATSAPP_PHONE_ID +:+ "/messages")
    {[ "Authorization" := "Bearer " +:+ WHATSAPP_TOKEN;
       "Content-Type" := "application/json" ]}
    (PDict {[ "messaging_product" := PStr "whatsapp";
              "to" := to_number;
              "type" := PStr "text";
              "text" := PDict {[ "body" := message ]} ]})
    10.

(** The events of one call of [enviar_mensaje_whatsapp]: the call, and
    the HTTP call when the token and the phone id are configured. *)
Definition delivery_events (to_number message : pyval) : list Event :=
  if negb (truthy (PStr WHATSAPP_TOKEN)) || negb (truthy (PStr WHATSAPP_PHONE_ID))
  then [EvDeliver to_number message]
  else [EvDeliver to_number message; EvPost (whatsapp_post to_number message)].

Definition with_trace (st : State) (evs : list Event) : State :=
  mkState (session st) (conversations st) (trace st ++ evs).

(** Both the token and the phone id are set: the negation of the test
    that opens [enviar_mensaje_whatsapp]. *)
Definition whatsapp_configured : bool :=
  truthy (PStr WHATSAPP_TOKEN) && truthy (PStr WHATSAPP_PHONE_ID).

(** The text the webhook hands to the per-sender flow for a message of a
    type other than ["text"]. *)
Definition unsupported_text (mtype : pyval) : pyval :=
  PStr ("[Tipo de mensaje " +:+ py_format mtype +:+ " no soportado por ahora]").

(** ** Properties *)

(** *** The monad *)

Lemma bind_ok {A B} (m : M A) (k : A -> M B) st a st' :
  m st = (Ok a, st') -> bind m k st = k a st'.
Proof. intros Hm. unfold bind. by rewrite Hm. Qed.

Lemma bind_raise {A B} (m : M A) (k : A -> M B) st e st' :
  m st = (Raise e, st') -> bind m k st = (Raise e, st').
Proof. intros Hm. unfold bind. by rewrite Hm. Qed.

Lemma try_except_ok {A} (m : M A) handler st a st' :
  m st = (Ok a, st') -> try_except m handler st = (Ok a, st').
Proof. intros Hm. unfold try_except. by rewrite Hm. Qed.

Lemma try_except_raise {A} (m : M A) handler st e st' :
  m st = (Raise e, st') -> try_except m handler st = handler e st'.
Proof. intros Hm. unfold try_except. by rewrite Hm. Qed.

(** [bind_value v]: the first action of the goal returns [v] and
    leaves the state as it is; go on with the rest. *)
Ltac bind_value v :=
  lazymatch goal with
  | |- bind _ _ ?st = _ => rewrite (bind_ok _ _ st v st) by done
  end.

Lemma for_each_one {A} (x : A) (body : A -> M unit) st st' :
  body x st = (Ok tt, st') -> for_each [x] body st = (Ok tt, st').
Proof. intros Hb. simpl. by rewrite (bind_ok _ _ _ _ _ Hb). Qed.

Lemma bind_returns {A B} (m : M A) (k : A -> M B) (b : B) :
  (forall x st r st', k x st = (Ok r, st') -> r = b) ->
  forall st r st', bind m k st = (Ok r, st') -> r = b.
Proof.
  intros Hk st r st'. unfold bind.
  destruct (m st) as [[a|e] st1]; [apply Hk|discriminate].
Qed.

(** *** Building the contents *)

Lemma new_Part_accepted t st :
  Part_accepts t = true -> new_Part t st = (Ok (mkPart t), st).
Proof. intros Ht. unfold new_Part. by rewrite Ht. Qed.

Lemma append_history_accepted history :
  history_accepted history = true ->
  forall full_contents st,
    append_history history full_contents st =
    (Ok (full_contents ++ map turn_content history)%list, st).
Proof.
  induction history as [|message rest IH]; intros Hacc full_contents st.
  - simpl. by rewrite app_nil_r.
  - simpl in Hacc. apply andb_true_iff in Hacc as [Hm Hrest].
    simpl. rewrite (bind_ok _ _ _ _ _ (new_Part_accepted _ _ Hm)).
    rewrite (IH Hrest). by rewrite <- app_assoc.
Qed.

(** *** The generation call *)

Lemma search_file_store_text contents store_names model system_instruction st t :
  generate_content (trace st)
    (mkGenRequest model contents system_instruction store_names) = GenText t ->
  search_file_store contents store_names model system_instruction st =
  (Ok t, with_trace st
           [EvGenerate (mkGenRequest model contents system_instruction store_names)]).
Proof. intros Hg. unfold search_file_store. by rewrite Hg. Qed.

Lemma search_file_store_raises contents store_names model system_instruction st e :
  generate_content (trace st)
    (mkGenRequest model contents system_instruction store_names) = GenRaises e ->
  search_file_store contents store_names model system_instruction st =
  (Raise e, with_trace st
              [EvGenerate (mkGenRequest model contents system_instruction store_names)]).
Proof. intros Hg. unfold search_file_store. by rewrite Hg. Qed.

(** *** The per-sender flow *)

Lemma procesar_text sender_id key user_text st t :
  py_key sender_id = Ok key ->
  let history := default [] (conversations st !! key) in
  history_accepted history = true ->
  Part_accepts user_text = true ->
  generate_content (trace st) (sender_request history user_text) = GenText t ->
  procesar_con_gemini_for_sender sender_id user_text st =
  (Ok t,
   mkState (session st)
     (<[key := (history ++ [mkTurn "user" user_text; mkTurn "model" t])%list]>
        (conversations st))
     (trace st ++ [EvGenerate (sender_request history user_text)])).
Proof.
  intros Hkey history Hacc Hpart Hgen.
  unfold procesar_con_gemini_for_sender.
  rewrite (bind_ok _ _ st key st) by (unfold lift; by rewrite Hkey).
  bind_value history.
  rewrite (bind_ok _ _ _ _ _ (append_history_accepted _ Hacc [] st)).
  rewrite (bind_ok _ _ _ _ _ (new_Part_accepted _ _ Hpart)).
  apply try_except_ok.
  rewrite (bind_ok _ _ _ _ _ (search_file_store_text _ _ _ _ _ _ Hgen)).
  reflexivity.
Qed.

Lemma procesar_raises sender_id key user_text st e :
  py_key sender_id = Ok key ->
  let history := default [] (conversations st !! key) in
  history_accepted history = true ->
  Part_accepts user_text = true ->
  generate_content (trace st) (sender_request history user_text) = GenRaises e ->
  procesar_con_gemini_for_sender sender_id user_text st =
  (Ok (PStr APOLOGY),
   mkState (session st) (delete key (conversations st))
     (trace st ++ [EvGenerate (sender_request history user_text)])).
Proof.
  intros Hkey history Hacc Hpart Hgen.
  unfold procesar_con_gemini_for_sender.
  rewrite (bind_ok _ _ st key st) by (unfold lift; by rewrite Hkey).
  bind_value history.
  rewrite (bind_ok _ _ _ _ _ (append_history_accepted _ Hacc [] st)).
  rewrite (bind_ok _ _ _ _ _ (new_Part_accepted _ _ Hpart)).
  erewrite try_except_raise;
    [| by rewrite (bind_raise _ _ _ _ _ (search_file_store_raises _ _ _ _ _ _ Hgen))].
  reflexivity.
Qed.

(** *** Delivery *)

Lemma enviar_mensaje_whatsapp_returns to_number message st :
  exists send_result,
    enviar_mensaje_whatsapp to_number message st =
    (Ok send_result, with_trace st (delivery_events to_number message)).
Proof.
  unfold enviar_mensaje_whatsapp, delivery_events, with_trace, bind, modify.
  destruct (negb (truthy (PStr WHATSAPP_TOKEN)) || negb (truthy (PStr WHATSAPP_PHONE_ID)));
    simpl.
  - eexists. reflexivity.
  - fold (whatsapp_post to_number message).
    destruct (requests_post _ _); eexists; unfold emit; simpl;
      by rewrite <- app_assoc.
Qed.

(** *** One text message *)

Lemma text_message_inv message sender user_text :
  text_message message = Some (sender, user_text) ->
  exists m t,
    message = PDict m /\ m !! "from" = Some (PStr sender) /\
    truthy (PStr sender) = true /\ m !! "type" = Some (PStr "text") /\
    m !! "text" = Some (PDict t) /\ default (PStr "") (t !! "body") = user_text.
Proof.
  unfold text_message. intros H.
  destruct message as [| | | | |?|m]; try discriminate.
  destruct (m !! "from") as [[| | | |s| |]|] eqn:Hfrom; try discriminate.
  destruct (m !! "type") as [[| | | |ty| |]|] eqn:Htype; try discriminate.
  destruct (m !! "text") as [[| | | | | |t]|] eqn:Htext; try discriminate.
  destruct (negb (String.length s =? 0)%nat) eqn:Hs; try discriminate.
  destruct (String.eqb ty "text") eqn:Hty; try discriminate.
  simpl in H. injection H as <- <-.
  apply String.eqb_eq in Hty as ->.
  exists m, t. by repeat split.
Qed.

Lemma only_message_inv payload message :
  only_message payload = Some message ->
  exists p entry change value,
    payload = PDict p /\ p !! "entry" = Some (PList [PDict entry]) /\
    entry !! "changes" = Some (PList [PDict change]) /\
    change !! "value" = Some (PDict value) /\
    value !! "messages" = Some (PList [message]).
Proof.
  unfold only_message. intros H.
  destruct payload as [| | | | |?|p]; try discriminate.
  destruct (p !! "entry") as [[| | | | |[|[| | | | | |entry] [|]]|]|] eqn:Hp;
    try discriminate.
  destruct (entry !! "changes") as [[| | | | |[|[| | | | | |change] [|]]|]|] eqn:He;
    try discriminate.
  destruct (change !! "value") as [[| | | | | |value]|] eqn:Hc; try discriminate.
  destruct (value !! "messages") as [[| | | | |[|message' [|]]|]|] eqn:Hv;
    try discriminate.
  injection H as <-.
  exists p, entry, change, value. by repeat split.
Qed.

Lemma truthy_dict_lookup (d : gmap string pyval) key x :
  d !! key = Some x -> truthy (PDict d) = true.
Proof.
  intros Hx. simpl. apply negb_true_iff, Nat.eqb_neq.
  intros Hsize. apply map_size_empty_iff in Hsize. subst d.
  by rewrite lookup_empty in Hx.
Qed.

(** The handler on an envelope with one message, in terms of the loop
    body on that message. *)
Lemma whatsapp_webhook_only_message payload message st st' :
  only_message payload = Some message ->
  process_message message st = (Ok tt, st') ->
  whatsapp_webhook payload st = (Ok (mkReply (PStr "EVENT_RECEIVED") 200), st').
Proof.
  intros Hpay Hbody.
  apply only_message_inv in Hpay
    as (p & entry & change & value & -> & Hp & He & Hc & Hv).
  unfold whatsapp_webhook.
  rewrite (truthy_dict_lookup _ _ _ Hp). cbn [negb].
  apply try_except_ok.
  unfold py_get, py_iter, lift.
  rewrite Hp. simpl default.
  bind_value (PList [PDict entry]).
  bind_value [PDict entry].
  erewrite bind_ok; [reflexivity|].
  apply for_each_one.
  rewrite He. simpl default.
  bind_value (PList [PDict change]).
  bind_value [PDict change].
  apply for_each_one.
  rewrite Hc. simpl default.
  bind_value (PDict value).
  rewrite Hv. simpl default.
  bind_value (PList [message]).
  cbn [truthy length Nat.eqb negb].
  bind_value [message].
  by apply for_each_one.
Qed.

(** The loop body on a text message: the per-sender flow, then one
    delivery of its result. *)
Lemma process_message_text message sender user_text st bot_response st' :
  text_message message = Some (sender, user_text) ->
  procesar_con_gemini_for_sender (PStr sender) user_text st = (Ok bot_response, st') ->
  process_message message st =
  (Ok tt, with_trace st' (delivery_events (PStr sender) bot_response)).
Proof.
  intros Hmsg Hproc.
  apply text_message_inv in Hmsg as (m & t & -> & Hfrom & Htruthy & Htype & Htext & Hbody).
  unfold process_message, py_get, py_getitem, lift.
  rewrite Hfrom, Htype, Htext. simpl default.
  bind_value (PStr sender).
  rewrite Htruthy. cbn [negb].
  bind_value (PStr "text").
  rewrite (bind_ok _ _ st user_text st).
  2:{ cbn [py_eq_str]. rewrite String.eqb_refl.
      bind_value (PDict t). by rewrite Hbody. }
  rewrite (bind_ok _ _ _ _ _ Hproc).
  destruct (enviar_mensaje_whatsapp_returns (PStr sender) bot_response st')
    as [send_result Hsend].
  by rewrite (bind_ok _ _ _ _ _ Hsend).
Qed.

(** *** The manual query *)

Lemma handle_query_proceeds (d : gmap string pyval) user_query st :
  d !! "query" = Some user_query ->
  history_accepted (chat_history st) = true ->
  Part_accepts user_query = true ->
  handle_query (PDict d) st =
  try_except
    (gemini_response_text <- search_file_store
                               (contents_of (chat_history st) user_query)
                               [FILE_SEARCH_STORE_ID]
                               "gemini-2.5-flash" (Some SYSTEM_PROMPT_RESERVAS) ;;
     modify (set_session (insert "chat_history"
               (chat_history st ++ [mkTurn "user" user_query;
                                    mkTurn "model" gemini_response_text])%list)) ;;;
     ret (mkReply (PDict {[
            "response" := gemini_response_text;
            "agent_role" := PStr "Agente de Reservas del Hotel";
            "status" := PStr "Memoria gestionada por la API (cookie de sesión)" ]})
          200))
    (fun e =>
       modify (set_session (delete "chat_history")) ;;;
       ret (mkReply (PDict {[
              "error" := PStr "Ocurrió un error en la API de Gemini.";
              "details" := PStr (exn_str e) ]})
            500)) st.
Proof.
  intros Hq Hacc Hpart.
  unfold handle_query.
  rewrite (truthy_dict_lookup _ _ _ Hq). cbn [negb].
  rewrite (bind_ok _ _ st false st).
  2:{ rewrite (bind_ok _ _ st true st); [done|].
      unfold lift, py_in. by rewrite Hq, bool_decide_true. }
  cbv iota.
  rewrite (bind_ok _ _ st user_query st) by (unfold lift, py_get; by rewrite Hq).
  bind_value (chat_history st).
  rewrite (bind_ok _ _ _ _ _ (append_history_accepted _ Hacc [] st)).
  by rewrite (bind_ok _ _ _ _ _ (new_Part_accepted _ _ Hpart)).
Qed.

(** With the provider's outcome known, the request goes through the
    guard, builds its contents from the session and calls the provider
    once; the session ends with the grown history or without one. *)
Lemma handle_query_text (d : gmap string pyval) user_query st t :
  d !! "query" = Some user_query ->
  history_accepted (chat_history st) = true ->
  Part_accepts user_query = true ->
  generate_content (trace st) (query_request (chat_history st) user_query) = GenText t ->
  handle_query (PDict d) st =
  (Ok (mkReply (PDict {[
         "response" := t;
         "agent_role" := PStr "Agente de Reservas del Hotel";
         "status" := PStr "Memoria gestionada por la API (cookie de sesión)" ]}) 200),
   mkState
     (<["chat_history" :=
          (chat_history st ++ [mkTurn "user" user_query; mkTurn "model" t])%list]>
        (session st))
     (conversations st)
     (trace st ++ [EvGenerate (query_request (chat_history st) user_query)])).
Proof.
  intros Hq Hacc Hpart Hgen.
  rewrite (handle_query_proceeds _ _ _ Hq Hacc Hpart).
  apply try_except_ok.
  by rewrite (bind_ok _ _ _ _ _ (search_file_store_text _ _ _ _ _ _ Hgen)).
Qed.

Lemma handle_query_raises (d : gmap string pyval) user_query st e :
  d !! "query" = Some user_query ->
  history_accepted (chat_history st) = true ->
  Part_accepts user_query = true ->
  generate_content (trace st) (query_request (chat_history st) user_query) = GenRaises e ->
  handle_query (PDict d) st =
  (Ok (mkReply (PDict {[
         "error" := PStr "Ocurrió un error en la API de Gemini.";
         "details" := PStr (exn_str e) ]}) 500),
   mkState (delete "chat_history" (session st)) (conversations st)
     (trace st ++ [EvGenerate (query_request (chat_history st) user_query)])).
Proof.
  intros Hq Hacc Hpart Hgen.
  rewrite (handle_query_proceeds _ _ _ Hq Hacc Hpart).
  erewrite try_except_raise;
    [| by rewrite (bind_raise _ _ _ _ _ (search_file_store_raises _ _ _ _ _ _ Hgen))].
  reflexivity.
Qed.

(** *** Query parameters *)

Lemma py_eq_str_opt o s : py_eq_str (opt_str o) s = true <-> o = Some s.
Proof.
  destruct o as [s'|]; cbn [opt_str py_eq_str].
  - rewrite String.eqb_eq. split; [by intros ->|by intros [= ->]].
  - split; discriminate.
Qed.

(** *** Claims *)

(** C1.  A [POST /query] whose body is a JSON object with a [query]
    field, when the provider call is reached ([types.Part] takes the
    texts of the session history and the query) and returns the text
    [t]: the handler replies 200, the field [response] of the reply is
    [t], and the session history is the previous one followed by the
    user turn and then the model turn, two turns longer. *)
Theorem query_success_appends_turn_pair (d : gmap string pyval) user_query st t :
  d !! "query" = Some user_query ->
  history_accepted (chat_history st) = true ->
  Part_accepts user_query = true ->
  generate_content (trace st) (query_request (chat_history st) user_query) = GenText t ->
  exists reply st',
    handle_query (PDict d) st = (Ok reply, st') /\
    status reply = 200 /\
    reply_field reply "response" = Some t /\
    session st' !! "chat_history" =
      Some (chat_history st ++ [mkTurn "user" user_query; mkTurn "model" t])%list /\
    length (chat_history st') = (length (chat_history st) + 2)%nat.
Proof.
  intros Hq Hacc Hpart Hgen.
  eexists _, _. split; [by apply handle_query_text|].
  split; [done|]. split; [done|].
  split; [cbn [session]; by rewrite lookup_insert_eq|].
  unfold chat_history at 1. cbn [session].
  rewrite lookup_insert_eq. cbn [default from_option id].
  by rewrite length_app.
Qed.

(** C2.  A [POST /query] whose provider call is reached (as in C1) and
    raises [e]:
    the handler replies 500 with the fields [error] and [details], and
    the session has no chat history left, so the next request reads an
    empty one. *)
Theorem query_failure_drops_history (d : gmap string pyval) user_query st e :
  d !! "query" = Some user_query ->
  history_accepted (chat_history st) = true ->
  Part_accepts user_query = true ->
  generate_content (trace st) (query_request (chat_history st) user_query) = GenRaises e ->
  exists reply st',
    handle_query (PDict d) st = (Ok reply, st') /\
    status reply = 500 /\
    reply_field reply "error" = Some (PStr "Ocurrió un error en la API de Gemini.") /\
    reply_field reply "details" = Some (PStr (exn_str e)) /\
    session st' !! "chat_history" = None /\
    chat_history st' = [].
Proof.
  intros Hq Hacc Hpart Hgen.
  eexists _, _. split; [by apply handle_query_raises|].
  split; [done|]. split; [done|]. split; [done|].
  split; [cbn [session]; by rewrite lookup_delete_eq|].
  unfold chat_history at 1. cbn [session].
  by rewrite lookup_delete_eq.
Qed.


(** C3, as the code has it.  A [POST /query] whose body is absent, or
    is a JSON object without the key [query], is answered 400 and
    nothing else happens: the state, and with it the trace of provider
    calls, is the one the handler started from. *)
Theorem query_absent_rejected data st :
  query_absent data = true ->
  handle_query data st =
    (Ok (mkReply (PDict {[ "error" :=
           PStr "Debe enviar un JSON con la clave 'query'." ]}) 400), st) /\
  generations (trace (handle_query data st).2) = generations (trace st).
Proof.
  intros Habs.
  assert (handle_query data st =
    (Ok (mkReply (PDict {[ "error" :=
           PStr "Debe enviar un JSON con la clave 'query'." ]}) 400), st)) as Heq.
  { destruct data as [| | | | | |d]; try discriminate; [done|].
    unfold query_absent in Habs.
    destruct (d !! "query") eqn:Hq; [discriminate|].
    unfold handle_query.
    destruct (truthy (PDict d)); cbn [negb].
    - rewrite (bind_ok _ _ st true st); [done|].
      rewrite (bind_ok _ _ st false st); [done|].
      unfold lift, py_in. rewrite Hq, bool_decide_false; [done|].
      by intros [? ?].
    - by rewrite (bind_ok _ _ st true st). }
  by rewrite Heq.
Qed.

(** C7, as the code has it.  On a [GET /webhook] that carries
    [hub.challenge], the view answers that value with 200 exactly when
    [hub.mode] is ["subscribe"] and [hub.verify_token] is the configured
    token; on every request where the mode or the token does not match,
    with or without a challenge, it answers 403 with the mismatch
    message; the state is never changed. *)
Theorem whatsapp_verify_echoes_present_challenge args st :
  let accepted :=
    args_get args "hub.mode" = Some "subscribe" /\
    args_get args "hub.verify_token" = Some WHATSAPP_VERIFY_TOKEN in
  (forall challenge,
      args_get args "hub.challenge" = Some challenge ->
      ((whatsapp_verify args st).1 = Ok (mkReply (PStr challenge) 200) <-> accepted)) /\
  (~ accepted ->
   (whatsapp_verify args st).1 = Ok (mkReply (PStr "Verification token mismatch") 403)) /\
  (whatsapp_verify args st).2 = st.
Proof.
  intros accepted. subst accepted.
  unfold whatsapp_verify.
  destruct (py_eq_str (opt_str (args_get args "hub.mode")) "subscribe" &&
            py_eq_str (opt_str (args_get args "hub.verify_token")) WHATSAPP_VERIFY_TOKEN)
    eqn:Hcond; cbn [ret fst snd].
  - apply andb_true_iff in Hcond as [Hm Ht].
    apply py_eq_str_opt in Hm, Ht.
    split; [|split; [|done]].
    + intros challenge ->. by split.
    + intros Hneg. exfalso. by apply Hneg.
  - assert (~ (args_get args "hub.mode" = Some "subscribe" /\
               args_get args "hub.verify_token" = Some WHATSAPP_VERIFY_TOKEN)) as Hneg.
    { intros [Hm Ht]. apply py_eq_str_opt in Hm, Ht. by rewrite Hm, Ht in Hcond. }
    split; [|by split].
    intros challenge _. split; [discriminate|].
    intros Hacc. exfalso. by apply Hneg.
Qed.

(** C8.  [POST /webhook] without a JSON body ([get_json(silent=True)]
    gives [None]) answers 400 with the body ["no payload"]; the
    conversation store and the trace of outbound calls are untouched. *)
Theorem whatsapp_webhook_no_body st :
  whatsapp_webhook PNone st = (Ok (mkReply (PStr "no payload") 400), st).
Proof. reflexivity. Qed.

(** C10.  [POST /webhook] with a body that parses to a falsy value
    (among them [{}], [[]], [null], [false] and [0]) answers 400
    ["no payload"] as well, and leaves the state alone: the guard
    tests the truth value of the parsed body. *)
Theorem whatsapp_webhook_falsy_body payload st :
  truthy payload = false ->
  whatsapp_webhook payload st = (Ok (mkReply (PStr "no payload") 400), st).
Proof. intros Hfalsy. unfold whatsapp_webhook. by rewrite Hfalsy. Qed.

(** A body with a truth value never gets that answer: the handler ends
    with 200 or, on an exception, with 500. *)
Lemma whatsapp_webhook_truthy_body payload st :
  truthy payload = true ->
  exists reply st',
    whatsapp_webhook payload st = (Ok reply, st') /\
    (reply = mkReply (PStr "EVENT_RECEIVED") 200 \/ reply = mkReply (PStr "error") 500).
Proof.
  intros Htruthy. unfold whatsapp_webhook. rewrite Htruthy. cbn [negb].
  unfold try_except.
  match goal with |- context [match ?m st with _ => _ end] =>
    destruct (m st) as [[reply|e] st1] eqn:Hrun end.
  - eexists _, _. split; [reflexivity|]. left.
    revert Hrun. apply bind_returns. intros entries.
    apply bind_returns. intros entries'.
    apply bind_returns. intros _ st2 r st3 [= <- _]. reflexivity.
  - eexists _, _. split; [reflexivity|]. by right.
Qed.

(** C9.  [POST /clear] answers 200 from every state, with or without a
    history in the session; a second call answers the same and changes
    nothing more; and the [/query] that follows a [/clear] sends the
    provider contents made of its own user turn only. *)
Theorem clear_history_always_resets st :
  let cleared := (clear_history st).2 in
  (exists reply, (clear_history st).1 = Ok reply /\ status reply = 200) /\
  session cleared !! "chat_history" = None /\
  clear_history cleared = ((clear_history st).1, cleared) /\
  (forall (d : gmap string pyval) user_query,
      d !! "query" = Some user_query ->
      Part_accepts user_query = true ->
      let request := query_request [] user_query in
      gen_contents request = [mkContent "user" [mkPart user_query]] /\
      trace (handle_query (PDict d) cleared).2 = (trace st ++ [EvGenerate request])%list).
Proof.
  intros cleared. subst cleared.
  set (cleared := set_session (delete "chat_history") st).
  assert (forall st0, clear_history st0 =
    (Ok (mkReply (PDict {[ "status" :=
           PStr "Historial de conversación limpiado. Nueva sesión iniciada." ]}) 200),
     set_session (delete "chat_history") st0)) as Hclear by reflexivity.
  rewrite !Hclear. cbn [fst snd]. fold cleared.
  assert (session cleared !! "chat_history" = None) as Hnone.
  { unfold cleared. cbn [set_session session]. by rewrite lookup_delete_eq. }
  split; [by eexists|]. split; [done|]. split.
  { f_equal. unfold cleared, set_session. cbn [session conversations trace].
    by rewrite delete_delete_eq. }
  intros d user_query Hq Hpart. split; [done|].
  assert (chat_history cleared = []) as Hempty.
  { unfold chat_history. by rewrite Hnone. }
  destruct (generate_content (trace cleared) (query_request [] user_query))
    as [t|e] eqn:Hgen.
  - rewrite (handle_query_text d user_query cleared t); rewrite ?Hempty; done.
  - rewrite (handle_query_raises d user_query cleared e); rewrite ?Hempty; done.
Qed.


(** *** Traces *)

Lemma deliveries_app tr tr' :
  deliveries (tr ++ tr') = (deliveries tr ++ deliveries tr')%list.
Proof.
  induction tr as [|[req|to_number message|post] tr IH]; simpl; by rewrite ?IH.
Qed.

Lemma deliveries_delivery_events to_number message :
  deliveries (delivery_events to_number message) = [(to_number, message)].
Proof. unfold delivery_events. by destruct (_ || _). Qed.

Lemma generations_app tr tr' :
  generations (tr ++ tr') = (generations tr ++ generations tr')%list.
Proof.
  induction tr as [|[req|to_number message|post] tr IH]; simpl; by rewrite ?IH.
Qed.

Lemma generations_delivery_events to_number message :
  generations (delivery_events to_number message) = [].
Proof. unfold delivery_events. by destruct (_ || _). Qed.

(** C4.  When the generation call of the per-sender flow is reached and
    raises [e]: [procesar_con_gemini_for_sender] returns the apology
    and no exception, and the sender has no entry in [conversations]
    afterwards, whatever it had before; and [POST /webhook], on an
    envelope whose one message is that text message, answers 200
    ["EVENT_RECEIVED"], has dropped the sender's entry and has
    delivered the apology to the sender. *)
Theorem sender_failure_apologises sender_id key user_text st e :
  py_key sender_id = Ok key ->
  history_accepted (default [] (conversations st !! key)) = true ->
  Part_accepts user_text = true ->
  generate_content (trace st)
    (sender_request (default [] (conversations st !! key)) user_text) = GenRaises e ->
  (exists st',
      procesar_con_gemini_for_sender sender_id user_text st = (Ok (PStr APOLOGY), st') /\
      conversations st' !! key = None) /\
  (forall payload message sender,
      sender_id = PStr sender ->
      only_message payload = Some message ->
      text_message message = Some (sender, user_text) ->
      exists st',
        whatsapp_webhook payload st = (Ok (mkReply (PStr "EVENT_RECEIVED") 200), st') /\
        conversations st' !! key = None /\
        deliveries (trace st') =
          (deliveries (trace st) ++ [(sender_id, PStr APOLOGY)])%list).
Proof.
  intros Hkey Hacc Hpart Hgen.
  pose proof (procesar_raises _ _ _ _ _ Hkey Hacc Hpart Hgen) as Hproc.
  split.
  - eexists. split; [exact Hproc|]. cbn [conversations]. apply lookup_delete_eq.
  - intros payload message sender -> Hpay Hmsg.
    eexists. split.
    + eapply whatsapp_webhook_only_message; [exact Hpay|].
      eapply process_message_text; [exact Hmsg|exact Hproc].
    + cbn [with_trace conversations trace]. split; [apply lookup_delete_eq|].
      rewrite !deliveries_app, deliveries_delivery_events.
      cbn [deliveries]. by rewrite app_nil_r.
Qed.

(** C5.  [POST /webhook] on an envelope whose one message is a text
    message from a sender without an entry in [conversations], when the
    generation call is reached and returns [t]: the handler answers
    200, the store is the old one plus one entry, the one of the sender,
    which holds the user turn with the message body and then the model
    turn with [t]; the delivery function is called once, for that
    sender with [t], and the provider once: the new part of the trace is
    the generation call followed by the events of that one delivery. *)
Theorem webhook_new_sender_one_conversation payload message sender user_text st t :
  only_message payload = Some message ->
  text_message message = Some (sender, user_text) ->
  conversations st !! KStr sender = None ->
  Part_accepts user_text = true ->
  generate_content (trace st) (sender_request [] user_text) = GenText t ->
  exists st',
    whatsapp_webhook payload st = (Ok (mkReply (PStr "EVENT_RECEIVED") 200), st') /\
    conversations st' =
      <[KStr sender := [mkTurn "user" user_text; mkTurn "model" t]]> (conversations st) /\
    conversations st' !! KStr sender =
      Some [mkTurn "user" user_text; mkTurn "model" t] /\
    size (conversations st') = S (size (conversations st)) /\
    deliveries (trace st') = (deliveries (trace st) ++ [(PStr sender, t)])%list /\
    generations (trace st') =
      (generations (trace st) ++ [sender_request [] user_text])%list /\
    trace st' =
      (trace st ++ EvGenerate (sender_request [] user_text) ::
                   delivery_events (PStr sender) t)%list.
Proof.
  intros Hpay Hmsg Hnew Hpart Hgen.
  assert (py_key (PStr sender) = Ok (KStr sender)) as Hkey by done.
  pose proof (procesar_text (PStr sender) (KStr sender) user_text st t Hkey) as Hproc.
  cbv zeta in Hproc. rewrite Hnew in Hproc. cbn [default from_option] in Hproc.
  specialize (Hproc eq_refl Hpart Hgen).
  eexists. split.
  - eapply whatsapp_webhook_only_message; [exact Hpay|].
    eapply process_message_text; [exact Hmsg|exact Hproc].
  - cbn [with_trace conversations trace].
    split; [done|]. split; [apply lookup_insert_eq|].
    split; [by apply map_size_insert_None|].
    rewrite !deliveries_app, !generations_app.
    rewrite deliveries_delivery_events, generations_delivery_events.
    cbn [deliveries generations]. rewrite !app_nil_r.
    split; [done|]. split; [done|]. by rewrite <- app_assoc.
Qed.


(** *** Store names *)

Lemma length_append (s1 s2 : string) :
  String.length (s1 +:+ s2) = (String.length s1 + String.length s2)%nat.
Proof. induction s1 as [|c s1 IH]; simpl; by rewrite ?IH. Qed.

Lemma prefixed_store_name_differs (store_id : string) :
  store_id <> "fileSearchStores/" +:+ store_id.
Proof.
  intros Heq. apply (f_equal String.length) in Heq.
  rewrite length_append in Heq. simpl in Heq. lia.
Qed.

(** C6.  From one history and one user text, [/query] and the
    per-sender flow call the provider once each; the two requests have
    the same model, contents and system instruction, and differ in the
    store names: the bare id for [/query], the id after
    ["fileSearchStores/"] for the per-sender flow.  When the provider
    gives both the same outcome, the history kept in the session and
    the one kept for the sender end up the same. *)
Theorem store_name_differs_between_paths
    (d : gmap string pyval) sender_id key user_text st :
  d !! "query" = Some user_text ->
  py_key sender_id = Ok key ->
  default [] (conversations st !! key) = chat_history st ->
  history_accepted (chat_history st) = true ->
  Part_accepts user_text = true ->
  let by_query := query_request (chat_history st) user_text in
  let by_sender := sender_request (chat_history st) user_text in
  let after_query := (handle_query (PDict d) st).2 in
  let after_sender := (procesar_con_gemini_for_sender sender_id user_text st).2 in
  generations (trace after_query) = (generations (trace st) ++ [by_query])%list /\
  generations (trace after_sender) = (generations (trace st) ++ [by_sender])%list /\
  gen_store_names by_query = [FILE_SEARCH_STORE_ID] /\
  gen_store_names by_sender = ["fileSearchStores/" +:+ FILE_SEARCH_STORE_ID] /\
  gen_store_names by_query <> gen_store_names by_sender /\
  gen_model by_query = gen_model by_sender /\
  gen_contents by_query = gen_contents by_sender /\
  gen_system_instruction by_query = gen_system_instruction by_sender /\
  (generate_content (trace st) by_query = generate_content (trace st) by_sender ->
   session after_query !! "chat_history" = conversations after_sender !! key).
Proof.
  intros Hq Hkey Hsame Hacc Hpart by_query by_sender after_query after_sender.
  assert (history_accepted (default [] (conversations st !! key)) = true) as Hacc'
    by (by rewrite Hsame).
  assert (gen_store_names by_query <> gen_store_names by_sender) as Hdiff.
  { intros [= Heq]. by apply prefixed_store_name_differs in Heq. }
  subst after_query after_sender.
  destruct (generate_content (trace st) by_query) as [t|e] eqn:Hgq;
    destruct (generate_content (trace st) by_sender) as [t'|e'] eqn:Hgs.
  all: subst by_query by_sender.
  all: first [rewrite (handle_query_text d user_text st _ Hq Hacc Hpart Hgq)
             |rewrite (handle_query_raises d user_text st _ Hq Hacc Hpart Hgq)].
  all: rewrite <- Hsame in Hgs.
  all: first [rewrite (procesar_text sender_id key user_text st _ Hkey Hacc' Hpart Hgs)
             |rewrite (procesar_raises sender_id key user_text st _ Hkey Hacc' Hpart Hgs)].
  all: rewrite Hsame.
  all: cbn [fst snd trace session conversations].
  all: rewrite !generations_app; cbn [generations].
  all: repeat (split; [done|]).
  all: intros [= <-] || intros [=].
  all: by rewrite ?lookup_insert_eq, ?lookup_delete_eq.
Qed.


(** ** Further properties *)

(** *** The loop over the history *)

Lemma append_history_run history full_contents st :
  append_history history full_contents st =
  (if history_accepted history
   then Ok (full_contents ++ map turn_content history)%list
   else Raise (Exn ValidationError "validation error for Part"),
   st).
Proof.
  revert full_contents.
  induction history as [|message rest IH]; intros full_contents.
  - simpl. by rewrite app_nil_r.
  - cbn [append_history history_accepted forallb].
    unfold new_Part, bind.
    destruct (Part_accepts (text message)) eqn:Hm; cbn [andb].
    + unfold ret. rewrite IH. fold (history_accepted rest).
      destruct (history_accepted rest); [|done].
      by rewrite <- app_assoc.
    + done.
Qed.

(** X1.  The loop that turns a history into contents is all or nothing:
    when [types.Part] takes every text it returns one content per turn,
    in the order of the history and with the role of each turn, after
    the contents it was given; when one text is refused it raises the
    validation error; it never changes the state. *)
Theorem append_history_all_or_nothing history full_contents st :
  (append_history history full_contents st).2 = st /\
  (history_accepted history = true ->
   (append_history history full_contents st).1 =
     Ok (full_contents ++
         map (fun message => mkContent (role message) [mkPart (text message)]) history)%list) /\
  (history_accepted history = false ->
   exists e, (append_history history full_contents st).1 = Raise e /\
             exn_class_of e = ValidationError).
Proof.
  rewrite append_history_run. cbn [fst snd].
  split; [done|]. split; intros ->; [done|by eexists].
Qed.

(** *** Everything the per-sender flow can do *)

Lemma procesar_outcomes sender_id user_text st :
  (exists e, procesar_con_gemini_for_sender sender_id user_text st = (Raise e, st)) \/
  (exists key t,
      py_key sender_id = Ok key /\
      procesar_con_gemini_for_sender sender_id user_text st =
      (Ok t,
       mkState (session st)
         (<[key := (default [] (conversations st !! key) ++
                    [mkTurn "user" user_text; mkTurn "model" t])%list]>
            (conversations st))
         (trace st ++ [EvGenerate
            (sender_request (default [] (conversations st !! key)) user_text)]))) \/
  (exists key,
      py_key sender_id = Ok key /\
      procesar_con_gemini_for_sender sender_id user_text st =
      (Ok (PStr APOLOGY),
       mkState (session st) (delete key (conversations st))
         (trace st ++ [EvGenerate
            (sender_request (default [] (conversations st !! key)) user_text)]))).
Proof.
  destruct (py_key sender_id) as [key|e] eqn:Hkey.
  2:{ left. exists e. unfold procesar_con_gemini_for_sender.
      apply bind_raise. unfold lift. by rewrite Hkey. }
  destruct (history_accepted (default [] (conversations st !! key))) eqn:Hacc.
  2:{ left. eexists. unfold procesar_con_gemini_for_sender.
      rewrite (bind_ok _ _ st key st) by (unfold lift; by rewrite Hkey).
      bind_value (default [] (conversations st !! key)).
      apply bind_raise. by rewrite append_history_run, Hacc. }
  destruct (Part_accepts user_text) eqn:Hpart.
  2:{ left. eexists. unfold procesar_con_gemini_for_sender.
      rewrite (bind_ok _ _ st key st) by (unfold lift; by rewrite Hkey).
      bind_value (default [] (conversations st !! key)).
      rewrite (bind_ok _ _ _ _ _ (append_history_accepted _ Hacc [] st)).
      apply bind_raise. unfold new_Part. by rewrite Hpart. }
  destruct (generate_content (trace st)
              (sender_request (default [] (conversations st !! key)) user_text))
    as [t|e] eqn:Hgen.
  - right. left. exists key, t. split; [done|]. by apply procesar_text.
  - right. right. exists key. split; [done|]. by eapply procesar_raises.
Qed.

(** *** Everything the loop body can do *)

Lemma process_message_outcomes message st :
  (process_message message st).2 = st \/
  (exists sender user_text bot_response st1,
      procesar_con_gemini_for_sender sender user_text st = (Ok bot_response, st1) /\
      process_message message st =
      (Ok tt, with_trace st1 (delivery_events sender bot_response))).
Proof.
  unfold process_message.
  destruct message as [| | | | | |m]; try (by left).
  cbn [py_get]. rewrite !(bind_ok _ _ st (default PNone (m !! "from")) st) by done.
  destruct (truthy (default PNone (m !! "from"))); cbn [negb]; [|by left].
  rewrite !(bind_ok _ _ st (default PNone (m !! "type")) st) by done.
  set (sender := default PNone (m !! "from")).
  set (mtype := default PNone (m !! "type")).
  match goal with
  | |- context [bind ?ut _] =>
      assert ((exists e, ut st = (Raise e, st)) \/ (exists user_text, ut st = (Ok user_text, st)))
        as [[e Hut]|[user_text Hut]]
  end.
  { destruct (py_eq_str mtype "text"); [|right; by eexists].
    unfold py_getitem, lift, bind.
    destruct (m !! "text") as [t|]; [|left; by eexists].
    destruct t; cbn [py_get]; first [left; by eexists | right; by eexists]. }
  { left. by rewrite (bind_raise _ _ _ _ _ Hut). }
  rewrite (bind_ok _ _ _ _ _ Hut).
  destruct (procesar_outcomes sender user_text st)
    as [[e Hproc]|[(key & t & _ & Hproc)|(key & _ & Hproc)]].
  - left. by rewrite (bind_raise _ _ _ _ _ Hproc).
  - right. eexists sender, user_text, _, _. split; [exact Hproc|].
    rewrite (bind_ok _ _ _ _ _ Hproc).
    destruct (enviar_mensaje_whatsapp_returns sender t
                (mkState (session st)
                   (<[key := (default [] (conversations st !! key) ++
                              [mkTurn "user" user_text; mkTurn "model" t])%list]>
                      (conversations st))
                   (trace st ++ [EvGenerate
                      (sender_request (default [] (conversations st !! key)) user_text)])))
      as [send_result Hsend].
    by rewrite (bind_ok _ _ _ _ _ Hsend).
  - right. eexists sender, user_text, _, _. split; [exact Hproc|].
    rewrite (bind_ok _ _ _ _ _ Hproc).
    destruct (enviar_mensaje_whatsapp_returns sender (PStr APOLOGY)
                (mkState (session st) (delete key (conversations st))
                   (trace st ++ [EvGenerate
                      (sender_request (default [] (conversations st !! key)) user_text)])))
      as [send_result Hsend].
    by rewrite (bind_ok _ _ _ _ _ Hsend).
Qed.


Lemma procesar_returns sender_id user_text st bot_response st1 :
  procesar_con_gemini_for_sender sender_id user_text st = (Ok bot_response, st1) ->
  exists key,
    py_key sender_id = Ok key /\
    session st1 = session st /\
    trace st1 =
      (trace st ++ [EvGenerate
         (sender_request (default [] (conversations st !! key)) user_text)])%list /\
    (conversations st1 =
       <[key := (default [] (conversations st !! key) ++
                 [mkTurn "user" user_text; mkTurn "model" bot_response])%list]>
         (conversations st) \/
     (bot_response = PStr APOLOGY /\ conversations st1 = delete key (conversations st))).
Proof.
  intros Hrun.
  destruct (procesar_outcomes sender_id user_text st)
    as [[e Hproc]|[(key & t & Hkey & Hproc)|(key & Hkey & Hproc)]];
    rewrite Hproc in Hrun; [discriminate| |].
  - injection Hrun as <- <-. exists key. repeat split; try done. by left.
  - injection Hrun as <- <-. exists key. repeat split; try done. by right.
Qed.

(** *** What a handler leaves related *)

Section Preservation.

Variable R : State -> State -> Prop.
Hypothesis R_refl : forall st, R st st.
Hypothesis R_trans : forall st1 st2 st3, R st1 st2 -> R st2 st3 -> R st1 st3.

Lemma preserves_ret {A} (a : A) : preserves R (ret a).
Proof. intros st. apply R_refl. Qed.

Lemma preserves_lift {A} (r : Result A) : preserves R (lift r).
Proof. intros st. apply R_refl. Qed.

Lemma preserves_bind {A B} (m : M A) (k : A -> M B) :
  preserves R m -> (forall a, preserves R (k a)) -> preserves R (bind m k).
Proof.
  intros Hm Hk st. unfold bind.
  pose proof (Hm st) as Hst.
  destruct (m st) as [[a|e] st1]; [|exact Hst].
  eapply R_trans; [exact Hst|apply Hk].
Qed.

Lemma preserves_try_except {A} (m : M A) (handler : exn -> M A) :
  preserves R m -> (forall e, preserves R (handler e)) ->
  preserves R (try_except m handler).
Proof.
  intros Hm Hh st. unfold try_except.
  pose proof (Hm st) as Hst.
  destruct (m st) as [[a|e] st1]; [exact Hst|].
  eapply R_trans; [exact Hst|apply Hh].
Qed.

Lemma preserves_for_each {A} (l : list A) (body : A -> M unit) :
  (forall x, preserves R (body x)) -> preserves R (for_each l body).
Proof.
  intros Hbody. induction l as [|x l IH]; [apply preserves_ret|].
  cbn [for_each]. apply preserves_bind; [apply Hbody|by intros _].
Qed.

(** The handler of [POST /webhook] leaves related what every run of the
    per-sender flow followed by its delivery leaves related. *)
Lemma whatsapp_webhook_preserves :
  (forall sender user_text st bot_response st1,
      procesar_con_gemini_for_sender sender user_text st = (Ok bot_response, st1) ->
      R st (with_trace st1 (delivery_events sender bot_response))) ->
  forall payload, preserves R (whatsapp_webhook payload).
Proof.
  intros Hstep payload.
  assert (forall message, preserves R (process_message message)) as Hbody.
  { intros message st.
    destruct (process_message_outcomes message st)
      as [Hsame|(sender & user_text & bot & st1 & Hproc & Hrun)].
    - rewrite Hsame. apply R_refl.
    - rewrite Hrun. cbn [snd]. by eapply Hstep. }
  unfold whatsapp_webhook.
  destruct (negb (truthy payload)); [apply preserves_ret|].
  apply preserves_try_except; [|intros e; apply preserves_ret].
  apply preserves_bind; [apply preserves_lift|intros entries].
  apply preserves_bind; [apply preserves_lift|intros entries'].
  apply preserves_bind; [|intros _; apply preserves_ret].
  apply preserves_for_each. intros entry.
  apply preserves_bind; [apply preserves_lift|intros changes].
  apply preserves_bind; [apply preserves_lift|intros changes'].
  apply preserves_for_each. intros change.
  apply preserves_bind; [apply preserves_lift|intros value].
  apply preserves_bind; [apply preserves_lift|intros messages].
  apply preserves_bind; [apply preserves_lift|intros messages'].
  by apply preserves_for_each.
Qed.

End Preservation.

(** *** The webhook on every payload *)

(** X2.  [POST /webhook] never lets an exception out: on every payload
    it answers ["no payload"] with 400, ["EVENT_RECEIVED"] with 200 or
    ["error"] with 500. *)
Theorem whatsapp_webhook_always_answers payload st :
  exists reply st',
    whatsapp_webhook payload st = (Ok reply, st') /\
    (reply = mkReply (PStr "no payload") 400 \/
     reply = mkReply (PStr "EVENT_RECEIVED") 200 \/
     reply = mkReply (PStr "error") 500).
Proof.
  destruct (truthy payload) eqn:Htruthy.
  - destruct (whatsapp_webhook_truthy_body payload st Htruthy)
      as (reply & st' & Hrun & [Hok|Herr]).
    + exists reply, st'. split; [done|]. right. by left.
    + exists reply, st'. split; [done|]. right. by right.
  - exists (mkReply (PStr "no payload") 400), st.
    split; [|by left]. unfold whatsapp_webhook. by rewrite Htruthy.
Qed.

(** X3.  [POST /webhook] never touches the Flask session, and it only
    adds to the calls made so far: on every payload the session is the
    one it started with and the old trace is a prefix of the new one. *)
Theorem whatsapp_webhook_keeps_session payload st :
  session (whatsapp_webhook payload st).2 = session st /\
  trace st `prefix_of` trace (whatsapp_webhook payload st).2.
Proof.
  apply (whatsapp_webhook_preserves
           (fun st st' => session st' = session st /\ trace st `prefix_of` trace st')).
  - by intros st0.
  - intros st1 st2 st3 [Hs12 Hp12] [Hs23 Hp23]. split; [congruence|by etrans].
  - intros sender user_text st0 bot st1 Hproc.
    apply procesar_returns in Hproc as (key & _ & Hsession & Htrace & _).
    cbn [with_trace session trace]. split; [done|].
    rewrite Htrace, <- app_assoc. by apply prefix_app_r.
Qed.

(** X4.  [POST /webhook] delivers once per answer: on every payload,
    and whether it ends with 200 or 500, the calls of the provider and
    the calls of the delivery function grow by the same number. *)
Theorem whatsapp_webhook_delivers_each_answer payload st :
  calls_balanced st (whatsapp_webhook payload st).2.
Proof.
  apply (whatsapp_webhook_preserves calls_balanced).
  - by intros st0.
  - unfold calls_balanced. intros st1 st2 st3 H12 H23. lia.
  - intros sender user_text st0 bot st1 Hproc.
    apply procesar_returns in Hproc as (key & _ & _ & Htrace & _).
    unfold calls_balanced. cbn [with_trace trace].
    rewrite Htrace, !generations_app, !deliveries_app.
    rewrite generations_delivery_events, deliveries_delivery_events.
    cbn [generations deliveries]. rewrite !length_app. simpl. lia.
Qed.


Lemma posts_app tr tr' : posts (tr ++ tr') = (posts tr ++ posts tr')%list.
Proof.
  induction tr as [|[req|to_number message|post] tr IH]; simpl; by rewrite ?IH.
Qed.

Lemma posts_delivery_events to_number message :
  posts (delivery_events to_number message) =
  if whatsapp_configured then [whatsapp_post to_number message] else [].
Proof.
  unfold delivery_events, whatsapp_configured.
  by destruct (truthy (PStr WHATSAPP_TOKEN)), (truthy (PStr WHATSAPP_PHONE_ID)).
Qed.

(** X5.  [POST /webhook] reaches the messaging platform only through
    deliveries: without a token or a phone id it makes no HTTP call at
    all, on any payload; with both it makes as many HTTP calls as calls
    of the delivery function. *)
Theorem whatsapp_webhook_posts_only_when_configured payload st :
  (whatsapp_configured = false ->
   posts (trace (whatsapp_webhook payload st).2) = posts (trace st)) /\
  (whatsapp_configured = true ->
   (length (posts (trace (whatsapp_webhook payload st).2)) +
    length (deliveries (trace st)) =
    length (posts (trace st)) +
    length (deliveries (trace (whatsapp_webhook payload st).2)))%nat).
Proof.
  apply (whatsapp_webhook_preserves
           (fun st st' =>
              (whatsapp_configured = false -> posts (trace st') = posts (trace st)) /\
              (whatsapp_configured = true ->
               (length (posts (trace st')) + length (deliveries (trace st)) =
                length (posts (trace st)) + length (deliveries (trace st')))%nat))).
  - by intros st0.
  - intros st1 st2 st3 [Hoff12 Hon12] [Hoff23 Hon23]. split; intros Hconf.
    + by rewrite Hoff23, Hoff12.
    + specialize (Hon12 Hconf). specialize (Hon23 Hconf). lia.
  - intros sender user_text st0 bot st1 Hproc.
    apply procesar_returns in Hproc as (key & _ & _ & Htrace & _).
    cbn [with_trace trace]. rewrite Htrace, !posts_app, !deliveries_app.
    rewrite posts_delivery_events, deliveries_delivery_events.
    cbn [posts deliveries]. split; intros Hconf; rewrite Hconf.
    + by rewrite !app_nil_r.
    + rewrite !length_app. simpl. lia.
Qed.

(** *** The manual query on every body *)

Lemma handle_query_outcomes data st :
  (exists e, handle_query data st = (Raise e, st)) \/
  handle_query data st =
    (Ok (mkReply (PDict {[ "error" :=
           PStr "Debe enviar un JSON con la clave 'query'." ]}) 400), st) \/
  (exists user_query t,
      handle_query data st =
      (Ok (mkReply (PDict {[
             "response" := t;
             "agent_role" := PStr "Agente de Reservas del Hotel";
             "status" := PStr "Memoria gestionada por la API (cookie de sesión)" ]}) 200),
       mkState
         (<["chat_history" :=
              (chat_history st ++ [mkTurn "user" user_query; mkTurn "model" t])%list]>
            (session st))
         (conversations st)
         (trace st ++ [EvGenerate (query_request (chat_history st) user_query)]))) \/
  (exists user_query e,
      handle_query data st =
      (Ok (mkReply (PDict {[
             "error" := PStr "Ocurrió un error en la API de Gemini.";
             "details" := PStr (exn_str e) ]}) 500),
       mkState (delete "chat_history" (session st)) (conversations st)
         (trace st ++ [EvGenerate (query_request (chat_history st) user_query)]))).
Proof.
  destruct (truthy data) eqn:Htruthy.
  2:{ right. left. unfold handle_query. rewrite Htruthy. cbn [negb].
      by bind_value true. }
  destruct (py_in "query" data) as [[|]|e] eqn:Hin.
  3:{ left. exists e. unfold handle_query. rewrite Htruthy. cbn [negb].
      apply bind_raise, bind_raise. unfold lift. by rewrite Hin. }
  2:{ right. left. unfold handle_query. rewrite Htruthy. cbn [negb].
      rewrite (bind_ok _ _ st true st); [done|].
      rewrite (bind_ok _ _ st false st); [done|]. unfold lift. by rewrite Hin. }
  assert (forall k : bool -> M Reply,
            bind (if negb (truthy data) then ret true
                  else bind (lift (py_in "query" data)) (fun found => ret (negb found)))
              k st = k false st) as Hguard.
  { intros k. rewrite Htruthy. cbn [negb].
    rewrite (bind_ok _ _ st false st); [done|].
    rewrite (bind_ok _ _ st true st); [done|]. unfold lift. by rewrite Hin. }
  destruct data as [| | | | | |d].
  1-6: left; eexists; unfold handle_query; rewrite Hguard; by apply bind_raise.
  cbn [py_in] in Hin. injection Hin as Hin. apply bool_decide_eq_true in Hin as [q Hq].
  destruct (history_accepted (chat_history st)) eqn:Hacc.
  2:{ left. eexists. unfold handle_query. rewrite Hguard.
      rewrite (bind_ok _ _ st q st) by (unfold lift, py_get; by rewrite Hq).
      bind_value (chat_history st).
      apply bind_raise. by rewrite append_history_run, Hacc. }
  destruct (Part_accepts q) eqn:Hpart.
  2:{ left. eexists. unfold handle_query. rewrite Hguard.
      rewrite (bind_ok _ _ st q st) by (unfold lift, py_get; by rewrite Hq).
      bind_value (chat_history st).
      rewrite (bind_ok _ _ _ _ _ (append_history_accepted _ Hacc [] st)).
      apply bind_raise. unfold new_Part. by rewrite Hpart. }
  destruct (generate_content (trace st) (query_request (chat_history st) q))
    as [t|e] eqn:Hgen.
  - right. right. left. exists q, t. by apply handle_query_text.
  - right. right. right. exists q, e. by apply handle_query_raises.
Qed.

(** X6.  [POST /query] stays within the session: on every body it
    leaves [conversations] alone, delivers nothing, and adds to the
    trace at most one event, a call of the provider. *)
Theorem handle_query_stays_in_session data st :
  conversations (handle_query data st).2 = conversations st /\
  deliveries (trace (handle_query data st).2) = deliveries (trace st) /\
  posts (trace (handle_query data st).2) = posts (trace st) /\
  (trace (handle_query data st).2 = trace st \/
   exists req, trace (handle_query data st).2 = (trace st ++ [EvGenerate req])%list).
Proof.
  destruct (handle_query_outcomes data st)
    as [[e Hrun]|[Hrun|[(q & t & Hrun)|(q & e & Hrun)]]];
    rewrite Hrun; cbn [snd conversations trace];
    rewrite ?deliveries_app, ?posts_app; cbn [deliveries posts];
    rewrite ?app_nil_r; repeat split; try done; eauto.
Qed.

(** X7.  A body of [POST /query] that is not an object and is not falsy
    goes as the operator [in] decides: where it raises (numbers, [true])
    the handler raises the same; where it finds no ["query"] the answer
    is 400; where it finds one (a list with that element, a string with
    that substring) the guard passes and [data.get] raises
    [AttributeError].  The state is untouched in all three cases. *)
Theorem handle_query_non_object_body data st :
  (forall d, data <> PDict d) ->
  truthy data = true ->
  handle_query data st =
  (match py_in "query" data with
   | Raise e => Raise e
   | Ok false =>
       Ok (mkReply (PDict {[ "error" :=
             PStr "Debe enviar un JSON con la clave 'query'." ]}) 400)
   | Ok true => Raise (Exn AttributeError "object has no attribute 'get'")
   end, st).
Proof.
  intros Hnot Htruthy. unfold handle_query. rewrite Htruthy. cbn [negb].
  destruct (py_in "query" data) as [[|]|e] eqn:Hin.
  - rewrite (bind_ok _ _ st false st).
    2:{ rewrite (bind_ok _ _ st true st); [done|]. done. }
    apply bind_raise. destruct data; try done. by destruct (Hnot d).
  - rewrite (bind_ok _ _ st true st); [done|].
    rewrite (bind_ok _ _ st false st); [done|]. done.
  - apply bind_raise, bind_raise. done.
Qed.

(** X8.  When [types.Part] refuses a text of the session history or the
    query itself, [POST /query] raises the validation error before the
    [try]: the provider is not called and the session history is kept
    as it was, unlike on a failure of the provider. *)
Theorem handle_query_refused_text (d : gmap string pyval) user_query st :
  d !! "query" = Some user_query ->
  history_accepted (chat_history st) && Part_accepts user_query = false ->
  handle_query (PDict d) st =
  (Raise (Exn ValidationError "validation error for Part"), st).
Proof.
  intros Hq Hrefused. unfold handle_query.
  rewrite (truthy_dict_lookup _ _ _ Hq). cbn [negb].
  rewrite (bind_ok _ _ st false st).
  2:{ rewrite (bind_ok _ _ st true st); [done|].
      unfold lift, py_in. by rewrite Hq, bool_decide_true. }
  cbv iota.
  rewrite (bind_ok _ _ st user_query st) by (unfold lift, py_get; by rewrite Hq).
  bind_value (chat_history st).
  destruct (history_accepted (chat_history st)) eqn:Hacc.
  - rewrite (bind_ok _ _ _ _ _ (append_history_accepted _ Hacc [] st)).
    apply bind_raise. unfold new_Part. cbn [andb] in Hrefused. by rewrite Hrefused.
  - apply bind_raise. by rewrite append_history_run, Hacc.
Qed.

(** X9.  Two [POST /query] in a row: when the first is answered [t] by
    the provider, the second sends the history of the first, then the
    first exchange, then its own query, whatever the provider does with
    it. *)
Theorem handle_query_carries_history
    (d1 d2 : gmap string pyval) user_query1 user_query2 st t :
  d1 !! "query" = Some user_query1 ->
  d2 !! "query" = Some user_query2 ->
  history_accepted (chat_history st) = true ->
  Part_accepts user_query1 = true ->
  Part_accepts t = true ->
  Part_accepts user_query2 = true ->
  generate_content (trace st) (query_request (chat_history st) user_query1) = GenText t ->
  generations (trace (handle_query (PDict d2) (handle_query (PDict d1) st).2).2) =
  (generations (trace st) ++
   [query_request (chat_history st) user_query1;
    query_request (chat_history st ++
                   [mkTurn "user" user_query1; mkTurn "model" t]) user_query2])%list.
Proof.
  intros Hq1 Hq2 Hacc Hp1 Hpt Hp2 Hgen.
  rewrite (handle_query_text d1 user_query1 st t Hq1 Hacc Hp1 Hgen). cbn [snd].
  set (st1 := mkState _ _ _).
  assert (chat_history st1 =
          (chat_history st ++ [mkTurn "user" user_query1; mkTurn "model" t])%list) as Hh1.
  { unfold chat_history at 1, st1. cbn [session]. by rewrite lookup_insert_eq. }
  assert (history_accepted (chat_history st1) = true) as Hacc1.
  { rewrite Hh1. unfold history_accepted in *. rewrite forallb_app, Hacc.
    cbn [forallb text andb]. by rewrite Hp1, Hpt. }
  destruct (generate_content (trace st1) (query_request (chat_history st1) user_query2))
    as [t2|e2] eqn:Hgen2.
  - rewrite (handle_query_text d2 user_query2 st1 t2 Hq2 Hacc1 Hp2 Hgen2).
    cbn [snd trace]. rewrite Hh1. unfold st1. cbn [trace].
    rewrite !generations_app. cbn [generations]. by rewrite <- app_assoc.
  - rewrite (handle_query_raises d2 user_query2 st1 e2 Hq2 Hacc1 Hp2 Hgen2).
    cbn [snd trace]. rewrite Hh1. unfold st1. cbn [trace].
    rewrite !generations_app. cbn [generations]. by rewrite <- app_assoc.
Qed.


(** *** Histories made of pairs *)

Lemma turn_pairs_snoc history user_text t :
  turn_pairs history = true ->
  turn_pairs (history ++ [mkTurn "user" user_text; mkTurn "model" t]) = true.
Proof.
  revert history. fix IH 1.
  intros [|user_turn [|model_turn rest]]; cbn [turn_pairs app]; try done.
  intros Hpairs. apply andb_true_iff in Hpairs as [Hroles Hrest].
  rewrite Hroles. cbn [andb]. by apply IH.
Qed.

(** X10.  The histories are only ever written pair by pair.  When every
    history of the state, in the session and per sender, is a sequence
    of (user, model) pairs, it is so again after [POST /query] on any
    body, after [POST /clear] and after [POST /webhook] on any payload,
    whether the handler returns or raises. *)
Theorem handlers_keep_turn_pairs data payload st :
  histories_paired st ->
  histories_paired (handle_query data st).2 /\
  histories_paired (clear_history st).2 /\
  histories_paired (whatsapp_webhook payload st).2.
Proof.
  intros Hpaired. split; [|split].
  - destruct Hpaired as [Hsession Hconv].
    destruct (handle_query_outcomes data st)
      as [[e Hrun]|[Hrun|[(q & t & Hrun)|(q & e & Hrun)]]];
      rewrite Hrun; cbn [snd]; try done.
    + split; [|done]. unfold chat_history at 1. cbn [session].
      rewrite lookup_insert_eq. cbn [default from_option id].
      by apply turn_pairs_snoc.
    + split; [|done]. unfold chat_history. cbn [session].
      by rewrite lookup_delete_eq.
  - destruct Hpaired as [Hsession Hconv].
    split; [|done]. unfold clear_history, chat_history, bind, modify, ret.
    cbn [snd set_session session]. by rewrite lookup_delete_eq.
  - revert Hpaired.
    apply (whatsapp_webhook_preserves
             (fun st st' => histories_paired st -> histories_paired st')); [done|auto|].
    intros sender user_text st0 bot st1 Hproc [Hsession Hconv].
    apply procesar_returns in Hproc as (key & _ & Hs & _ & Hc).
    split.
    + unfold chat_history. cbn [with_trace session]. by rewrite Hs.
    + cbn [with_trace conversations]. intros key' history Hlookup.
      destruct Hc as [Hc|[_ Hc]]; rewrite Hc in Hlookup.
      * destruct (decide (key = key')) as [<-|Hne].
        -- rewrite lookup_insert_eq in Hlookup. injection Hlookup as <-.
           apply turn_pairs_snoc.
           destruct (conversations st0 !! key) as [old|] eqn:Hold; [|done].
           by apply (Hconv key).
        -- rewrite lookup_insert_ne in Hlookup by done. by apply (Hconv key').
      * apply lookup_delete_Some in Hlookup as [_ Hlookup]. by apply (Hconv key').
Qed.

(** *** The webhook on an envelope of messages *)

Lemma only_message_envelope payload message :
  only_message payload = Some message ->
  envelope_messages payload = Some [message].
Proof.
  intros Hpay.
  apply only_message_inv in Hpay
    as (p & entry & change & value & -> & Hp & He & Hc & Hv).
  unfold envelope_messages. by rewrite Hp, He, Hc, Hv.
Qed.

Lemma envelope_messages_inv payload messages :
  envelope_messages payload = Some messages ->
  exists p entry change value,
    payload = PDict p /\ p !! "entry" = Some (PList [PDict entry]) /\
    entry !! "changes" = Some (PList [PDict change]) /\
    change !! "value" = Some (PDict value) /\
    value !! "messages" = Some (PList messages).
Proof.
  unfold envelope_messages. intros H.
  destruct payload as [| | | | |?|p]; try discriminate.
  destruct (p !! "entry") as [[| | | | |[|[| | | | | |entry] [|]]|]|] eqn:Hp;
    try discriminate.
  destruct (entry !! "changes") as [[| | | | |[|[| | | | | |change] [|]]|]|] eqn:He;
    try discriminate.
  destruct (change !! "value") as [[| | | | | |value]|] eqn:Hc; try discriminate.
  destruct (value !! "messages") as [[| | | | |messages'|]|] eqn:Hv;
    try discriminate.
  injection H as <-.
  exists p, entry, change, value. by repeat split.
Qed.

Lemma for_each_one_raises {A} (x : A) (body : A -> M unit) st e st' :
  body x st = (Raise e, st') -> for_each [x] body st = (Raise e, st').
Proof. intros Hb. simpl. by rewrite (bind_raise _ _ _ _ _ Hb). Qed.

(** The handler on an envelope, in terms of the loop over its messages:
    200 when the loop ends, 500 when it raises, and the state the loop
    left in both cases. *)
Lemma whatsapp_webhook_envelope payload messages st :
  envelope_messages payload = Some messages ->
  whatsapp_webhook payload st =
  (match (for_each messages process_message st).1 with
   | Ok _ => Ok (mkReply (PStr "EVENT_RECEIVED") 200)
   | Raise _ => Ok (mkReply (PStr "error") 500)
   end, (for_each messages process_message st).2).
Proof.
  intros Hpay.
  apply envelope_messages_inv in Hpay
    as (p & entry & change & value & -> & Hp & He & Hc & Hv).
  assert (forall l, py_iter (if truthy (PList l) then PList l else PList []) = Ok l)
    as Hiter by (by intros [|? ?]).
  unfold whatsapp_webhook.
  rewrite (truthy_dict_lookup _ _ _ Hp). cbn [negb].
  destruct (for_each messages process_message st) as [[[]|e] st'] eqn:Hloop;
    cbn [fst snd].
  - apply try_except_ok.
    unfold py_get, lift. rewrite Hp. cbn [default from_option id].
    bind_value (PList [PDict entry]). bind_value [PDict entry].
    erewrite bind_ok; [reflexivity|].
    apply for_each_one. rewrite He. cbn [default from_option id].
    bind_value (PList [PDict change]). bind_value [PDict change].
    apply for_each_one. rewrite Hc. cbn [default from_option id].
    bind_value (PDict value). rewrite Hv. cbn [default from_option id].
    bind_value (PList messages).
    rewrite (bind_ok _ _ st messages st) by (by rewrite Hiter).
    exact Hloop.
  - erewrite try_except_raise; [reflexivity|].
    unfold py_get, lift. rewrite Hp. cbn [default from_option id].
    bind_value (PList [PDict entry]). bind_value [PDict entry].
    apply bind_raise.
    apply for_each_one_raises. rewrite He. cbn [default from_option id].
    bind_value (PList [PDict change]). bind_value [PDict change].
    apply for_each_one_raises. rewrite Hc. cbn [default from_option id].
    bind_value (PDict value). rewrite Hv. cbn [default from_option id].
    bind_value (PList messages).
    rewrite (bind_ok _ _ st messages st) by (by rewrite Hiter).
    exact Hloop.
Qed.


(** *** The loop body, case by case *)

Lemma process_message_no_sender message st :
  no_sender message = true -> process_message message st = (Ok tt, st).
Proof.
  destruct message as [| | | | | |m]; try discriminate.
  cbn [no_sender]. intros Hfalsy. apply negb_true_iff in Hfalsy.
  unfold process_message, py_get, lift.
  bind_value (default PNone (m !! "from")). by rewrite Hfalsy.
Qed.

Lemma process_message_lacks_text message st :
  lacks_text message = true -> exists e, process_message message st = (Raise e, st).
Proof.
  destruct message as [| | | | | |m]; try discriminate.
  cbn [lacks_text]. intros Hlacks.
  apply andb_true_iff in Hlacks as [Hlacks Htext].
  apply andb_true_iff in Hlacks as [Hfrom Htype].
  unfold process_message, py_get, py_getitem, lift.
  rewrite (bind_ok _ _ st (default PNone (m !! "from")) st) by done.
  rewrite Hfrom. cbn [negb].
  rewrite (bind_ok _ _ st (default PNone (m !! "type")) st) by done.
  rewrite Htype.
  destruct (m !! "text") as [[| | | | | |t]|]; try discriminate;
    eexists; by apply bind_raise.
Qed.

Lemma process_message_raises message sender user_text st e st' :
  text_message message = Some (sender, user_text) ->
  procesar_con_gemini_for_sender (PStr sender) user_text st = (Raise e, st') ->
  process_message message st = (Raise e, st').
Proof.
  intros Hmsg Hproc.
  apply text_message_inv in Hmsg as (m & t & -> & Hfrom & Htruthy & Htype & Htext & Hbody).
  unfold process_message, py_get, py_getitem, lift.
  rewrite Hfrom, Htype, Htext. simpl default.
  bind_value (PStr sender).
  rewrite Htruthy. cbn [negb].
  bind_value (PStr "text").
  rewrite (bind_ok _ _ st user_text st).
  2:{ cbn [py_eq_str]. rewrite String.eqb_refl.
      bind_value (PDict t). by rewrite Hbody. }
  by rewrite (bind_raise _ _ _ _ _ Hproc).
Qed.

Lemma process_message_other message sender mtype st bot_response st' :
  other_message message = Some (sender, mtype) ->
  procesar_con_gemini_for_sender (PStr sender) (unsupported_text mtype) st =
    (Ok bot_response, st') ->
  process_message message st =
  (Ok tt, with_trace st' (delivery_events (PStr sender) bot_response)).
Proof.
  intros Hmsg Hproc.
  destruct message as [| | | | | |m]; try discriminate.
  cbn [other_message] in Hmsg.
  destruct (m !! "from") as [[| | | |s| |]|] eqn:Hfrom; try discriminate.
  destruct (negb (String.length s =? 0)%nat) eqn:Hs; [|discriminate].
  destruct (py_eq_str (default PNone (m !! "type")) "text") eqn:Htype; [discriminate|].
  cbn [negb andb] in Hmsg. injection Hmsg as <- <-.
  unfold process_message, py_get, lift. rewrite Hfrom. cbn [default from_option id].
  bind_value (PStr s).
  cbn [truthy]. rewrite Hs. cbn [negb].
  bind_value (default PNone (m !! "type")).
  rewrite Htype.
  rewrite (bind_ok _ _ st (unsupported_text (default PNone (m !! "type"))) st) by done.
  rewrite (bind_ok _ _ _ _ _ Hproc).
  destruct (enviar_mensaje_whatsapp_returns (PStr s) bot_response st')
    as [send_result Hsend].
  by rewrite (bind_ok _ _ _ _ _ Hsend).
Qed.

Lemma procesar_refused sender_id key user_text st :
  py_key sender_id = Ok key ->
  history_accepted (default [] (conversations st !! key)) && Part_accepts user_text = false ->
  procesar_con_gemini_for_sender sender_id user_text st =
  (Raise (Exn ValidationError "validation error for Part"), st).
Proof.
  intros Hkey Hrefused. unfold procesar_con_gemini_for_sender.
  rewrite (bind_ok _ _ st key st) by (unfold lift; by rewrite Hkey).
  bind_value (default [] (conversations st !! key)).
  destruct (history_accepted (default [] (conversations st !! key))) eqn:Hacc.
  - rewrite (bind_ok _ _ _ _ _ (append_history_accepted _ Hacc [] st)).
    apply bind_raise. unfold new_Part. cbn [andb] in Hrefused. by rewrite Hrefused.
  - apply bind_raise. by rewrite append_history_run, Hacc.
Qed.

Lemma for_each_no_sender messages st :
  forallb no_sender messages = true ->
  for_each messages process_message st = (Ok tt, st).
Proof.
  induction messages as [|message rest IH]; [done|].
  cbn [forallb for_each]. intros Hall. apply andb_true_iff in Hall as [Hm Hrest].
  rewrite (bind_ok _ _ _ _ _ (process_message_no_sender _ st Hm)). by apply IH.
Qed.

(** *** The webhook, case by case *)

(** X11.  Messages without a sender are skipped in silence: on an
    envelope whose messages all lack [from] (or have a falsy one),
    [POST /webhook] answers 200 and has done nothing, neither a
    provider call nor a delivery nor a change of [conversations]. *)
Theorem whatsapp_webhook_skips_senderless payload messages st :
  envelope_messages payload = Some messages ->
  forallb no_sender messages = true ->
  whatsapp_webhook payload st = (Ok (mkReply (PStr "EVENT_RECEIVED") 200), st).
Proof.
  intros Hpay Hall.
  rewrite (whatsapp_webhook_envelope _ _ _ Hpay).
  by rewrite (for_each_no_sender _ st Hall).
Qed.

(** X12.  A message of type ["text"] that carries no [text] object is a
    structural error: [message["text"]] or [.get] raises, and
    [POST /webhook] answers 500 ["error"] without a provider call, a
    delivery or a change of state. *)
Theorem whatsapp_webhook_text_without_body payload message st :
  only_message payload = Some message ->
  lacks_text message = true ->
  whatsapp_webhook payload st = (Ok (mkReply (PStr "error") 500), st).
Proof.
  intros Hpay Hlacks.
  rewrite (whatsapp_webhook_envelope _ _ _ (only_message_envelope _ _ Hpay)).
  destruct (process_message_lacks_text message st Hlacks) as [e Hbody].
  by rewrite (for_each_one_raises _ _ _ _ _ Hbody).
Qed.

(** X13.  When [types.Part] refuses the body of a text message (or a
    text of the sender's history), the per-sender flow raises before
    its [try]: [POST /webhook] answers 500 ["error"], the sender gets no
    apology, and the conversation is kept, not dropped. *)
Theorem whatsapp_webhook_refused_text payload message sender user_text st :
  only_message payload = Some message ->
  text_message message = Some (sender, user_text) ->
  history_accepted (default [] (conversations st !! KStr sender)) &&
    Part_accepts user_text = false ->
  whatsapp_webhook payload st = (Ok (mkReply (PStr "error") 500), st).
Proof.
  intros Hpay Hmsg Hrefused.
  rewrite (whatsapp_webhook_envelope _ _ _ (only_message_envelope _ _ Hpay)).
  assert (py_key (PStr sender) = Ok (KStr sender)) as Hkey by done.
  pose proof (procesar_refused _ _ _ st Hkey Hrefused) as Hproc.
  by rewrite (for_each_one_raises _ _ _ _ _
                (process_message_raises _ _ _ _ _ _ Hmsg Hproc)).
Qed.

(** X14.  A message of another type than ["text"] is answered too: the
    per-sender flow gets the placeholder text for that type, and when
    the provider returns [t] the sender's history grows by the
    placeholder and [t], [t] is delivered to the sender, and
    [POST /webhook] answers 200. *)
Theorem whatsapp_webhook_unsupported_type payload message sender mtype st t :
  only_message payload = Some message ->
  other_message message = Some (sender, mtype) ->
  history_accepted (default [] (conversations st !! KStr sender)) = true ->
  Part_accepts (unsupported_text mtype) = true ->
  generate_content (trace st)
    (sender_request (default [] (conversations st !! KStr sender))
       (unsupported_text mtype)) = GenText t ->
  exists st',
    whatsapp_webhook payload st = (Ok (mkReply (PStr "EVENT_RECEIVED") 200), st') /\
    conversations st' !! KStr sender =
      Some (default [] (conversations st !! KStr sender) ++
            [mkTurn "user" (unsupported_text mtype); mkTurn "model" t])%list /\
    deliveries (trace st') = (deliveries (trace st) ++ [(PStr sender, t)])%list.
Proof.
  intros Hpay Hmsg Hacc Hpart Hgen.
  assert (py_key (PStr sender) = Ok (KStr sender)) as Hkey by done.
  pose proof (procesar_text _ _ _ st t Hkey Hacc Hpart Hgen) as Hproc.
  eexists. split.
  - eapply whatsapp_webhook_only_message; [exact Hpay|].
    eapply process_message_other; [exact Hmsg|exact Hproc].
  - cbn [with_trace conversations trace]. split; [apply lookup_insert_eq|].
    rewrite !deliveries_app, deliveries_delivery_events.
    cbn [deliveries]. by rewrite app_nil_r.
Qed.

(** X15.  The effects of the messages handled before a structural error
    stay: on an envelope with a good text message followed by a text
    message without [text], [POST /webhook] answers 500 ["error"], yet
    the first sender's history has grown by the exchange and the answer
    has been delivered. *)
Theorem whatsapp_webhook_keeps_earlier_effects
    payload message broken sender user_text st t :
  envelope_messages payload = Some [message; broken] ->
  text_message message = Some (sender, user_text) ->
  lacks_text broken = true ->
  history_accepted (default [] (conversations st !! KStr sender)) = true ->
  Part_accepts user_text = true ->
  generate_content (trace st)
    (sender_request (default [] (conversations st !! KStr sender)) user_text) = GenText t ->
  exists st',
    whatsapp_webhook payload st = (Ok (mkReply (PStr "error") 500), st') /\
    conversations st' !! KStr sender =
      Some (default [] (conversations st !! KStr sender) ++
            [mkTurn "user" user_text; mkTurn "model" t])%list /\
    deliveries (trace st') = (deliveries (trace st) ++ [(PStr sender, t)])%list.
Proof.
  intros Hpay Hmsg Hlacks Hacc Hpart Hgen.
  assert (py_key (PStr sender) = Ok (KStr sender)) as Hkey by done.
  pose proof (procesar_text _ _ _ st t Hkey Hacc Hpart Hgen) as Hproc.
  pose proof (process_message_text _ _ _ _ _ _ Hmsg Hproc) as Hfirst.
  rewrite (whatsapp_webhook_envelope _ _ _ Hpay).
  cbn [for_each]. rewrite (bind_ok _ _ _ _ _ Hfirst).
  match goal with
  | |- context [bind (process_message broken) _ ?s] =>
      destruct (process_message_lacks_text broken s Hlacks) as [e Hsecond]
  end.
  rewrite (bind_raise _ _ _ _ _ Hsecond). cbn [fst snd].
  eexists. split; [reflexivity|].
  cbn [with_trace conversations trace]. split; [apply lookup_insert_eq|].
  rewrite !deliveries_app, deliveries_delivery_events.
  cbn [deliveries]. by rewrite app_nil_r.
Qed.

(** X16.  A payload that is truthy but no object (a list, a string, a
    number, [true]) is a structural error: [payload.get] raises and
    [POST /webhook] answers 500 ["error"] with the state untouched. *)
Theorem whatsapp_webhook_non_object_payload payload st :
  (forall p, payload <> PDict p) ->
  truthy payload = true ->
  whatsapp_webhook payload st = (Ok (mkReply (PStr "error") 500), st).
Proof.
  intros Hnot Htruthy. unfold whatsapp_webhook. rewrite Htruthy. cbn [negb].
  erewrite try_except_raise; [reflexivity|].
  apply bind_raise. destruct payload; try done. by destruct (Hnot d).
Qed.

(** X17.  An object that carries no entries (no [entry] key, or an
    empty list under it) is acknowledged: [POST /webhook] answers 200
    and does nothing. *)
Theorem whatsapp_webhook_without_entries (p : gmap string pyval) st :
  truthy (PDict p) = true ->
  default (PList []) (p !! "entry") = PList [] ->
  whatsapp_webhook (PDict p) st = (Ok (mkReply (PStr "EVENT_RECEIVED") 200), st).
Proof.
  intros Htruthy Hentry. unfold whatsapp_webhook. rewrite Htruthy. cbn [negb].
  apply try_except_ok. unfold py_get, lift. rewrite Hentry.
  bind_value (PList []). by bind_value (@nil pyval).
Qed.


(** *** The per-sender flow across senders and across messages *)

(** X18.  The per-sender flow touches one conversation only: whatever
    it does (return, apologise or raise), the history of every other
    sender and the Flask session are as before. *)
Theorem procesar_touches_one_sender sender_id user_text st other :
  py_key sender_id <> Ok other ->
  conversations (procesar_con_gemini_for_sender sender_id user_text st).2 !! other =
    conversations st !! other /\
  session (procesar_con_gemini_for_sender sender_id user_text st).2 = session st.
Proof.
  intros Hother.
  destruct (procesar_outcomes sender_id user_text st)
    as [[e Hproc]|[(key & t & Hkey & Hproc)|(key & Hkey & Hproc)]];
    rewrite Hproc; cbn [snd conversations session]; [done| |].
  - split; [|done]. apply lookup_insert_ne. intros ->. by apply Hother.
  - split; [|done]. apply lookup_delete_ne. intros ->. by apply Hother.
Qed.

(** X19.  Two messages of one sender in a row: when the first is
    answered [t] by the provider, the second call sends the history the
    sender had, then the first exchange, then the new text, whatever
    the provider does with it. *)
Theorem procesar_carries_history sender_id key user_text1 user_text2 st t :
  py_key sender_id = Ok key ->
  history_accepted (default [] (conversations st !! key)) = true ->
  Part_accepts user_text1 = true ->
  Part_accepts t = true ->
  Part_accepts user_text2 = true ->
  generate_content (trace st)
    (sender_request (default [] (conversations st !! key)) user_text1) = GenText t ->
  generations
    (trace (procesar_con_gemini_for_sender sender_id user_text2
              (procesar_con_gemini_for_sender sender_id user_text1 st).2).2) =
  (generations (trace st) ++
   [sender_request (default [] (conversations st !! key)) user_text1;
    sender_request (default [] (conversations st !! key) ++
                    [mkTurn "user" user_text1; mkTurn "model" t]) user_text2])%list.
Proof.
  intros Hkey Hacc Hp1 Hpt Hp2 Hgen.
  rewrite (procesar_text sender_id key user_text1 st t Hkey Hacc Hp1 Hgen). cbn [snd].
  set (history := default [] (conversations st !! key)) in *.
  set (st1 := mkState _ _ _).
  assert (default [] (conversations st1 !! key) =
          (history ++ [mkTurn "user" user_text1; mkTurn "model" t])%list) as Hh1.
  { unfold st1. cbn [conversations]. by rewrite lookup_insert_eq. }
  assert (history_accepted (default [] (conversations st1 !! key)) = true) as Hacc1.
  { rewrite Hh1. unfold history_accepted in *. rewrite forallb_app, Hacc.
    cbn [forallb text andb]. by rewrite Hp1, Hpt. }
  destruct (generate_content (trace st1)
              (sender_request (default [] (conversations st1 !! key)) user_text2))
    as [t2|e2] eqn:Hgen2.
  - rewrite (procesar_text sender_id key user_text2 st1 t2 Hkey Hacc1 Hp2 Hgen2).
    cbn [snd trace]. rewrite Hh1. unfold st1. cbn [trace].
    rewrite !generations_app. cbn [generations]. by rewrite <- app_assoc.
  - rewrite (procesar_raises sender_id key user_text2 st1 e2 Hkey Hacc1 Hp2 Hgen2).
    cbn [snd trace]. rewrite Hh1. unfold st1. cbn [trace].
    rewrite !generations_app. cbn [generations]. by rewrite <- app_assoc.
Qed.

(** X20.  After a failed generation the sender starts afresh: the next
    call of the per-sender flow sends contents made of the new user
    turn only, none of the turns kept before the failure. *)
Theorem procesar_restarts_after_failure sender_id key user_text1 user_text2 st e :
  py_key sender_id = Ok key ->
  history_accepted (default [] (conversations st !! key)) = true ->
  Part_accepts user_text1 = true ->
  Part_accepts user_text2 = true ->
  generate_content (trace st)
    (sender_request (default [] (conversations st !! key)) user_text1) = GenRaises e ->
  generations
    (trace (procesar_con_gemini_for_sender sender_id user_text2
              (procesar_con_gemini_for_sender sender_id user_text1 st).2).2) =
  (generations (trace st) ++
   [sender_request (default [] (conversations st !! key)) user_text1;
    sender_request [] user_text2])%list /\
  gen_contents (sender_request [] user_text2) = [mkContent "user" [mkPart user_text2]].
Proof.
  intros Hkey Hacc Hp1 Hp2 Hgen. split; [|done].
  rewrite (procesar_raises sender_id key user_text1 st e Hkey Hacc Hp1 Hgen). cbn [snd].
  set (history := default [] (conversations st !! key)) in *.
  set (st1 := mkState _ _ _).
  assert (default [] (conversations st1 !! key) = []) as Hh1.
  { unfold st1. cbn [conversations]. by rewrite lookup_delete_eq. }
  assert (history_accepted (default [] (conversations st1 !! key)) = true) as Hacc1
    by (by rewrite Hh1).
  destruct (generate_content (trace st1)
              (sender_request (default [] (conversations st1 !! key)) user_text2))
    as [t2|e2] eqn:Hgen2.
  - rewrite (procesar_text sender_id key user_text2 st1 t2 Hkey Hacc1 Hp2 Hgen2).
    cbn [snd trace]. rewrite Hh1. unfold st1. cbn [trace].
    rewrite !generations_app. cbn [generations]. by rewrite <- app_assoc.
  - rewrite (procesar_raises sender_id key user_text2 st1 e2 Hkey Hacc1 Hp2 Hgen2).
    cbn [snd trace]. rewrite Hh1. unfold st1. cbn [trace].
    rewrite !generations_app. cbn [generations]. by rewrite <- app_assoc.
Qed.

(** *** Delivery, whatever the transport does *)

(** X21.  The delivery function never raises and never touches the
    histories.  Without a token or a phone id it returns the
    configuration error and makes no HTTP call; with both it makes
    exactly one, to the messages endpoint of the phone id, carrying the
    recipient and the text, with a timeout of 10 seconds, whether the
    transport answers JSON, something else, or raises. *)
Theorem enviar_mensaje_whatsapp_never_raises to_number message st :
  exists send_result st',
    enviar_mensaje_whatsapp to_number message st = (Ok send_result, st') /\
    session st' = session st /\
    conversations st' = conversations st /\
    posts (trace st') =
      (posts (trace st) ++
       if whatsapp_configured
       then [mkHttpPost
               ("https://graph.facebook.com/v19.0/" +:+ WHATSAPP_PHONE_ID +:+ "/messages")
               {[ "Authorization" := "Bearer " +:+ WHATSAPP_TOKEN;
                  "Content-Type" := "application/json" ]}
               (PDict {[ "messaging_product" := PStr "whatsapp";
                         "to" := to_number;
                         "type" := PStr "text";
                         "text" := PDict {[ "body" := message ]} ]})
               10]
       else [])%list /\
    (whatsapp_configured = false ->
     send_result = PDict {[ "error" :=
       PStr "Configuración WhatsApp faltante en variables de entorno." ]}).
Proof.
  unfold enviar_mensaje_whatsapp, whatsapp_configured, bind, modify.
  destruct (truthy (PStr WHATSAPP_TOKEN)), (truthy (PStr WHATSAPP_PHONE_ID));
    cbn [negb orb andb].
  2-4: by (eexists _, _; split; [reflexivity|]; cbn [emit session conversations trace];
           rewrite posts_app; cbn [posts]; rewrite !app_nil_r).
  destruct (requests_post _ _);
    (eexists _, _; split; [reflexivity|]; cbn [emit session conversations trace];
     rewrite !posts_app; cbn [posts]; rewrite !app_nil_r; by repeat split).
Qed.


(** *** When the manual query answers 400 *)

Lemma bind_returns_such {A B} (P : B -> Prop) (m : M A) (k : A -> M B) :
  (forall x st r st', k x st = (Ok r, st') -> P r) ->
  forall st r st', bind m k st = (Ok r, st') -> P r.
Proof.
  intros Hk st r st'. unfold bind.
  destruct (m st) as [[a|e] st1]; [apply Hk|discriminate].
Qed.

Lemma try_except_returns_such {A} (P : A -> Prop) (m : M A) (handler : exn -> M A) :
  (forall st r st', m st = (Ok r, st') -> P r) ->
  (forall e st r st', handler e st = (Ok r, st') -> P r) ->
  forall st r st', try_except m handler st = (Ok r, st') -> P r.
Proof.
  intros Hm Hh st r st'. unfold try_except.
  destruct (m st) as [[a|e] st1] eqn:Hrun.
  - intros [= <- _]. by eapply Hm.
  - apply Hh.
Qed.

(** X23.  [POST /query] answers 400 exactly when the body is falsy or
    the test ['query' in data] is false; it then has changed nothing.
    Every other body gets past the guard, and what follows never
    answers 400. *)
Theorem handle_query_400_iff data st :
  (exists reply st', handle_query data st = (Ok reply, st') /\ status reply = 400) <->
  (truthy data = false \/ py_in "query" data = Ok false).
Proof.
  split.
  - intros (reply & st' & Hrun & Hstatus).
    destruct (truthy data) eqn:Htruthy; [right|by left].
    destruct (py_in "query" data) as [[|]|e] eqn:Hin; [exfalso|done|exfalso].
    + revert Hstatus. unfold handle_query in Hrun.
      rewrite Htruthy in Hrun. cbn [negb] in Hrun.
      rewrite (bind_ok _ _ st false st) in Hrun.
      2:{ rewrite (bind_ok _ _ st true st); [done|]. unfold lift. by rewrite Hin. }
      cbv iota in Hrun. revert Hrun.
      apply (bind_returns_such (fun r => status r <> 400)). intros user_query.
      apply bind_returns_such. intros history_json.
      apply bind_returns_such. intros full_contents.
      apply bind_returns_such. intros user_part.
      apply try_except_returns_such.
      * apply bind_returns_such. intros t.
        apply bind_returns_such. by intros _ st1 r st2 [= <- _].
      * intros e. apply bind_returns_such. by intros _ st1 r st2 [= <- _].
    + unfold handle_query in Hrun. rewrite Htruthy in Hrun. cbn [negb] in Hrun.
      rewrite (bind_raise _ _ st e st) in Hrun; [discriminate|].
      apply bind_raise. unfold lift. by rewrite Hin.
  - intros Hguard.
    exists (mkReply (PDict {[ "error" :=
              PStr "Debe enviar un JSON con la clave 'query'." ]}) 400), st.
    split; [|done]. unfold handle_query.
    destruct Hguard as [Hfalsy|Hin].
    + rewrite Hfalsy. cbn [negb]. by bind_value true.
    + destruct (truthy data); cbn [negb]; [|by bind_value true].
      rewrite (bind_ok _ _ st true st); [done|].
      rewrite (bind_ok _ _ st false st); [done|]. unfold lift. by rewrite Hin.
Qed.

End Api.

(** ** The theorems on the sample environment *)

Lemma query_success_appends_turn_pair_witness :
  exists reply st',
    handle_query sample_store_id sample_Part_accepts sample_generate_ok
      (PDict {[ "query" := PStr "Precio?" ]}) sample_state = (Ok reply, st') /\
    status reply = 200 /\
    reply_field reply "response" = Some (PStr "Hola") /\
    session st' !! "chat_history" =
      Some (chat_history sample_state ++
            [mkTurn "user" (PStr "Precio?"); mkTurn "model" (PStr "Hola")])%list /\
    length (chat_history st') = (length (chat_history sample_state) + 2)%nat.
Proof.
  apply (query_success_appends_turn_pair sample_store_id sample_Part_accepts
           sample_generate_ok {[ "query" := PStr "Precio?" ]} (PStr "Precio?")
           sample_state (PStr "Hola")); reflexivity.
Defined.

Lemma query_failure_drops_history_witness :
  exists reply st',
    handle_query sample_store_id sample_Part_accepts sample_generate_fails
      (PDict {[ "query" := PStr "Precio?" ]}) sample_state = (Ok reply, st') /\
    status reply = 500 /\
    reply_field reply "error" = Some (PStr "Ocurrió un error en la API de Gemini.") /\
    reply_field reply "details" = Some (PStr "429 RESOURCE_EXHAUSTED") /\
    session st' !! "chat_history" = None /\
    chat_history st' = [].
Proof.
  apply (query_failure_drops_history sample_store_id sample_Part_accepts
           sample_generate_fails {[ "query" := PStr "Precio?" ]} (PStr "Precio?")
           sample_state (Exn ExternalError "429 RESOURCE_EXHAUSTED")); reflexivity.
Defined.

Lemma query_absent_rejected_witness :
  query_absent (PDict {[ "pregunta" := PStr "Precio?" ]}) = true /\
  handle_query sample_store_id sample_Part_accepts sample_generate_ok
    (PDict {[ "pregunta" := PStr "Precio?" ]}) sample_state =
    (Ok (mkReply (PDict {[ "error" :=
           PStr "Debe enviar un JSON con la clave 'query'." ]}) 400), sample_state).
Proof.
  split; [reflexivity|].
  apply (query_absent_rejected sample_store_id sample_Part_accepts sample_generate_ok
           (PDict {[ "pregunta" := PStr "Precio?" ]}) sample_state).
  reflexivity.
Defined.

(** C3 as the specification words it fails on a [query] that is the
    empty string.  The body [{"query": ""}] has no non-empty [query]
    field, yet the handler passes the guard and calls the provider: the
    answer is 200 when the provider returns and 500 when it raises, never
    400, and the trace holds the call in both cases. *)
Lemma query_empty_string_not_rejected :
  no_nonempty_query (PDict {[ "query" := PStr "" ]}) = true /\
  (exists reply st',
      handle_query sample_store_id sample_Part_accepts sample_generate_ok
        (PDict {[ "query" := PStr "" ]}) empty_state = (Ok reply, st') /\
      status reply = 200 /\
      status reply <> 400 /\
      generations (trace st') = [query_request sample_store_id [] (PStr "")]) /\
  (exists reply st',
      handle_query sample_store_id sample_Part_accepts sample_generate_fails
        (PDict {[ "query" := PStr "" ]}) empty_state = (Ok reply, st') /\
      status reply = 500 /\
      status reply <> 400 /\
      generations (trace st') = [query_request sample_store_id [] (PStr "")]).
Proof.
  split; [reflexivity|]. split.
  - eexists _, _. split.
    + apply (handle_query_text sample_store_id sample_Part_accepts sample_generate_ok
               {[ "query" := PStr "" ]} (PStr "") empty_state (PStr "Hola"));
        reflexivity.
    + split; [reflexivity|]. split; [discriminate|reflexivity].
  - eexists _, _. split.
    + apply (handle_query_raises sample_store_id sample_Part_accepts
               sample_generate_fails {[ "query" := PStr "" ]} (PStr "") empty_state
               (Exn ExternalError "429 RESOURCE_EXHAUSTED")); reflexivity.
    + split; [reflexivity|]. split; [discriminate|reflexivity].
Qed.

Lemma sender_failure_apologises_witness :
  (exists st',
      procesar_con_gemini_for_sender sample_store_id sample_Part_accepts
        sample_generate_fails (PStr "51999") (PStr "Precio?") sample_state =
        (Ok (PStr APOLOGY), st') /\
      conversations st' !! KStr "51999" = None) /\
  (exists st',
      whatsapp_webhook sample_store_id sample_token sample_phone_id sample_Part_accepts
        sample_generate_fails sample_requests_post sample_py_format
        sample_envelope sample_state =
        (Ok (mkReply (PStr "EVENT_RECEIVED") 200), st') /\
      conversations st' !! KStr "51999" = None /\
      deliveries (trace st') =
        (deliveries (trace sample_state) ++ [(PStr "51999", PStr APOLOGY)])%list).
Proof.
  assert (Hfail := sender_failure_apologises sample_store_id sample_token sample_phone_id
              sample_Part_accepts sample_generate_fails sample_requests_post
              sample_py_format (PStr "51999") (KStr "51999") (PStr "Precio?")
              sample_state (Exn ExternalError "429 RESOURCE_EXHAUSTED")).
  do 4 (lapply Hfail; [clear Hfail; intros Hfail|reflexivity]).
  destruct Hfail as [Hflow Hhook].
  split; [exact Hflow|].
  apply (Hhook sample_envelope sample_message "51999"); reflexivity.
Defined.

Lemma webhook_new_sender_one_conversation_witness :
  exists st',
    whatsapp_webhook sample_store_id sample_token sample_phone_id sample_Part_accepts
      sample_generate_ok sample_requests_post sample_py_format
      sample_envelope empty_state =
      (Ok (mkReply (PStr "EVENT_RECEIVED") 200), st') /\
    conversations st' =
      <[KStr "51999" := [mkTurn "user" (PStr "Precio?"); mkTurn "model" (PStr "Hola")]]>
        (conversations empty_state) /\
    conversations st' !! KStr "51999" =
      Some [mkTurn "user" (PStr "Precio?"); mkTurn "model" (PStr "Hola")] /\
    size (conversations st') = S (size (conversations empty_state)) /\
    deliveries (trace st') =
      (deliveries (trace empty_state) ++ [(PStr "51999", PStr "Hola")])%list /\
    generations (trace st') =
      (generations (trace empty_state) ++
       [sender_request sample_store_id [] (PStr "Precio?")])%list /\
    trace st' =
      (trace empty_state ++
       EvGenerate (sender_request sample_store_id [] (PStr "Precio?")) ::
       delivery_events sample_token sample_phone_id (PStr "51999") (PStr "Hola"))%list.
Proof.
  apply (webhook_new_sender_one_conversation sample_store_id sample_token sample_phone_id
           sample_Part_accepts sample_generate_ok sample_requests_post sample_py_format
           sample_envelope sample_message "51999" (PStr "Precio?") empty_state
           (PStr "Hola")); reflexivity.
Defined.

Lemma store_name_differs_between_paths_witness :
  gen_store_names (query_request sample_store_id (chat_history sample_state) (PStr "Precio?"))
    = ["hotelknowledgebasestore2-g76jm0ml54f0"] /\
  gen_store_names (sender_request sample_store_id (chat_history sample_state) (PStr "Precio?"))
    = ["fileSearchStores/hotelknowledgebasestore2-g76jm0ml54f0"] /\
  generations (trace (handle_query sample_store_id sample_Part_accepts sample_generate_ok
                        (PDict {[ "query" := PStr "Precio?" ]}) sample_state).2) =
    [query_request sample_store_id (chat_history sample_state) (PStr "Precio?")] /\
  generations (trace (procesar_con_gemini_for_sender sample_store_id sample_Part_accepts
                        sample_generate_ok (PStr "51999") (PStr "Precio?") sample_state).2) =
    [sender_request sample_store_id (chat_history sample_state) (PStr "Precio?")].
Proof.
  assert (Hpaths := store_name_differs_between_paths sample_store_id sample_Part_accepts
              sample_generate_ok {[ "query" := PStr "Precio?" ]} (PStr "51999")
              (KStr "51999") (PStr "Precio?") sample_state).
  do 5 (lapply Hpaths; [clear Hpaths; intros Hpaths|reflexivity]).
  cbv zeta in Hpaths. destruct Hpaths as (Hq & Hs & Hnq & Hns & _).
  split; [exact Hnq|]. split; [exact Hns|]. split; [exact Hq|exact Hs].
Defined.

Lemma whatsapp_webhook_falsy_body_witness :
  Forall (fun payload =>
            truthy payload = false /\
            whatsapp_webhook sample_store_id sample_token sample_phone_id
              sample_Part_accepts sample_generate_ok sample_requests_post
              sample_py_format payload sample_state =
              (Ok (mkReply (PStr "no payload") 400), sample_state))
    [PDict ∅; PList []; PNone; PBool false; PInt 0].
Proof.
  repeat (apply Forall_cons_2;
          [split;
           [reflexivity
           |apply (whatsapp_webhook_falsy_body sample_store_id sample_token
                     sample_phone_id sample_Part_accepts sample_generate_ok
                     sample_requests_post sample_py_format); reflexivity]|]).
  apply Forall_nil_2.
Defined.

Lemma whatsapp_verify_echoes_present_challenge_witness :
  (whatsapp_verify sample_verify_token
     [("hub.mode", "subscribe"); ("hub.verify_token", "verify123");
      ("hub.challenge", "1158201444")] sample_state).1 =
    Ok (mkReply (PStr "1158201444") 200) /\
  (whatsapp_verify sample_verify_token
     [("hub.mode", "subscribe"); ("hub.verify_token", "otro");
      ("hub.challenge", "1158201444")] sample_state).1 =
    Ok (mkReply (PStr "Verification token mismatch") 403).
Proof.
  split.
  - destruct (whatsapp_verify_echoes_present_challenge sample_verify_token
                [("hub.mode", "subscribe"); ("hub.verify_token", "verify123");
                 ("hub.challenge", "1158201444")] sample_state) as (Hecho & _ & _).
    apply (Hecho "1158201444"); [reflexivity|]. split; reflexivity.
  - destruct (whatsapp_verify_echoes_present_challenge sample_verify_token
                [("hub.mode", "subscribe"); ("hub.verify_token", "otro");
                 ("hub.challenge", "1158201444")] sample_state) as (_ & Hreject & _).
    apply Hreject. intros [_ Htoken]. discriminate.
Defined.

(** C7 as the specification words it fails on a request that matches
    and carries no [hub.challenge]: the mode is ["subscribe"] and the
    token is the configured one, yet there is no challenge value to
    answer.  The view returns [(None, 200)], which is no string (and
    which Flask does not accept as a response). *)
Lemma whatsapp_verify_without_challenge :
  args_get [("hub.mode", "subscribe"); ("hub.verify_token", "verify123")] "hub.mode" =
    Some "subscribe" /\
  args_get [("hub.mode", "subscribe"); ("hub.verify_token", "verify123")]
    "hub.verify_token" = Some sample_verify_token /\
  args_get [("hub.mode", "subscribe"); ("hub.verify_token", "verify123")]
    "hub.challenge" = None /\
  whatsapp_verify sample_verify_token
    [("hub.mode", "subscribe"); ("hub.verify_token", "verify123")] sample_state =
    (Ok (mkReply PNone 200), sample_state) /\
  ~ (exists challenge,
        (whatsapp_verify sample_verify_token
           [("hub.mode", "subscribe"); ("hub.verify_token", "verify123")]
           sample_state).1 = Ok (mkReply (PStr challenge) 200)).
Proof.
  split; [reflexivity|]. split; [reflexivity|]. split; [reflexivity|].
  split; [reflexivity|]. intros [challenge Hecho]. discriminate.
Qed.

(** ** The webhook and the outcome of the transport *)

Lemma bind_cong {A B} (m1 m2 : M A) (k1 k2 : A -> M B) :
  (forall st, m1 st = m2 st) -> (forall a st, k1 a st = k2 a st) ->
  forall st, bind m1 k1 st = bind m2 k2 st.
Proof.
  intros Hm Hk st. unfold bind. rewrite Hm.
  destruct (m2 st) as [[a|e] st1]; [apply Hk|done].
Qed.

Lemma try_except_cong {A} (m1 m2 : M A) (handler : exn -> M A) :
  (forall st, m1 st = m2 st) ->
  forall st, try_except m1 handler st = try_except m2 handler st.
Proof. intros Hm st. unfold try_except. by rewrite Hm. Qed.

Lemma for_each_cong {A} (l : list A) (body1 body2 : A -> M unit) :
  (forall x st, body1 x st = body2 x st) ->
  forall st, for_each l body1 st = for_each l body2 st.
Proof.
  intros Hbody. induction l as [|x l IH]; intros st; [done|].
  cbn [for_each]. apply bind_cong; [apply Hbody|intros _; apply IH].
Qed.

Section Transport.

Variable FILE_SEARCH_STORE_ID WHATSAPP_TOKEN WHATSAPP_PHONE_ID : string.
Variable Part_accepts : pyval -> bool.
Variable generate_content : list Event -> GenRequest -> GenOutcome.
Variable py_format : pyval -> string.
Variable requests_post1 requests_post2 : list Event -> HttpPost -> PostOutcome.

Lemma process_message_any_transport message st :
  process_message FILE_SEARCH_STORE_ID WHATSAPP_TOKEN WHATSAPP_PHONE_ID Part_accepts
    generate_content requests_post1 py_format message st =
  process_message FILE_SEARCH_STORE_ID WHATSAPP_TOKEN WHATSAPP_PHONE_ID Part_accepts
    generate_content requests_post2 py_format message st.
Proof.
  unfold process_message.
  apply bind_cong; [done|]. intros sender st1.
  destruct (negb (truthy sender)); [done|].
  apply bind_cong; [done|]. intros mtype st2.
  apply bind_cong; [done|]. intros user_text st3.
  apply bind_cong; [done|]. intros bot_response st4.
  destruct (enviar_mensaje_whatsapp_returns WHATSAPP_TOKEN WHATSAPP_PHONE_ID
              requests_post1 sender bot_response st4) as [r1 H1].
  destruct (enviar_mensaje_whatsapp_returns WHATSAPP_TOKEN WHATSAPP_PHONE_ID
              requests_post2 sender bot_response st4) as [r2 H2].
  by rewrite (bind_ok _ _ _ _ _ H1), (bind_ok _ _ _ _ _ H2).
Qed.

(** X22.  What the transport answers to a delivery is only printed:
    with any two behaviours of [requests.post], [POST /webhook] gives
    the same reply and ends in the same state (same histories, same
    calls), on every payload. *)
Theorem whatsapp_webhook_ignores_transport payload st :
  whatsapp_webhook FILE_SEARCH_STORE_ID WHATSAPP_TOKEN WHATSAPP_PHONE_ID Part_accepts
    generate_content requests_post1 py_format payload st =
  whatsapp_webhook FILE_SEARCH_STORE_ID WHATSAPP_TOKEN WHATSAPP_PHONE_ID Part_accepts
    generate_content requests_post2 py_format payload st.
Proof.
  unfold whatsapp_webhook.
  destruct (negb (truthy payload)); [done|].
  apply try_except_cong. intros st0.
  apply bind_cong; [done|]. intros entries st1.
  apply bind_cong; [done|]. intros entries' st2.
  apply bind_cong; [|done].
  apply for_each_cong. intros entry st3.
  apply bind_cong; [done|]. intros changes st4.
  apply bind_cong; [done|]. intros changes' st5.
  apply for_each_cong. intros change st6.
  apply bind_cong; [done|]. intros value st7.
  apply bind_cong; [done|]. intros messages st8.
  apply bind_cong; [done|]. intros messages' st9.
  apply for_each_cong. apply process_message_any_transport.
Qed.

End Transport.

(** ** The further properties on the sample environment *)

Local Abbreviation sample_query generate :=
  (handle_query sample_store_id sample_Part_accepts generate).
Local Abbreviation sample_procesar generate :=
  (procesar_con_gemini_for_sender sample_store_id sample_Part_accepts generate).
Local Abbreviation sample_webhook generate :=
  (whatsapp_webhook sample_store_id sample_token sample_phone_id sample_Part_accepts
     generate sample_requests_post sample_py_format).

Lemma handle_query_non_object_body_witness :
  sample_query sample_generate_ok (PList [PStr "query"]) sample_state =
    (Raise (Exn AttributeError "object has no attribute 'get'"), sample_state) /\
  sample_query sample_generate_ok (PInt 7) sample_state =
    (Raise (Exn TypeError "argument is not iterable"), sample_state) /\
  sample_query sample_generate_ok (PStr "hola") sample_state =
    (Ok (mkReply (PDict {[ "error" :=
           PStr "Debe enviar un JSON con la clave 'query'." ]}) 400), sample_state).
Proof.
  split; [|split].
  - apply (handle_query_non_object_body sample_store_id sample_Part_accepts
             sample_generate_ok (PList [PStr "query"]) sample_state);
      [by intros d|reflexivity].
  - apply (handle_query_non_object_body sample_store_id sample_Part_accepts
             sample_generate_ok (PInt 7) sample_state);
      [by intros d|reflexivity].
  - apply (handle_query_non_object_body sample_store_id sample_Part_accepts
             sample_generate_ok (PStr "hola") sample_state);
      [by intros d|reflexivity].
Defined.

Lemma handle_query_refused_text_witness :
  sample_query sample_generate_ok (PDict {[ "query" := PInt 42 ]}) sample_state =
    (Raise (Exn ValidationError "validation error for Part"), sample_state).
Proof.
  apply (handle_query_refused_text sample_store_id sample_Part_accepts
           sample_generate_ok {[ "query" := PInt 42 ]} (PInt 42) sample_state);
    reflexivity.
Defined.

Lemma handle_query_carries_history_witness :
  generations
    (trace (sample_query sample_generate_ok (PDict {[ "query" := PStr "Y el desayuno?" ]})
              (sample_query sample_generate_ok (PDict {[ "query" := PStr "Precio?" ]})
                 sample_state).2).2) =
  [query_request sample_store_id sample_turns (PStr "Precio?");
   query_request sample_store_id
     (sample_turns ++ [mkTurn "user" (PStr "Precio?"); mkTurn "model" (PStr "Hola")])
     (PStr "Y el desayuno?")].
Proof.
  apply (handle_query_carries_history sample_store_id sample_Part_accepts
           sample_generate_ok {[ "query" := PStr "Precio?" ]}
           {[ "query" := PStr "Y el desayuno?" ]} (PStr "Precio?")
           (PStr "Y el desayuno?") sample_state (PStr "Hola")); reflexivity.
Defined.

Lemma handlers_keep_turn_pairs_witness :
  histories_paired sample_state /\
  histories_paired
    (sample_query sample_generate_ok (PDict {[ "query" := PStr "Precio?" ]})
       sample_state).2 /\
  histories_paired
    (clear_history sample_state).2 /\
  histories_paired
    (sample_webhook sample_generate_fails sample_envelope sample_state).2.
Proof.
  assert (histories_paired sample_state) as Hpaired.
  { split; [reflexivity|]. intros key history Hlookup.
    unfold sample_state in Hlookup. cbn [conversations] in Hlookup.
    apply lookup_singleton_Some in Hlookup as [_ <-]. reflexivity. }
  split; [exact Hpaired|].
  exact (handlers_keep_turn_pairs sample_store_id sample_token sample_phone_id
           sample_Part_accepts sample_generate_fails sample_requests_post
           sample_py_format (PDict {[ "query" := PStr "Precio?" ]}) sample_envelope
           sample_state Hpaired).
Defined.

Lemma whatsapp_webhook_skips_senderless_witness :
  sample_webhook sample_generate_ok
    (sample_envelope_of [sample_status_update; sample_status_update]) sample_state =
  (Ok (mkReply (PStr "EVENT_RECEIVED") 200), sample_state).
Proof.
  apply (whatsapp_webhook_skips_senderless sample_store_id sample_token sample_phone_id
           sample_Part_accepts sample_generate_ok sample_requests_post sample_py_format
           (sample_envelope_of [sample_status_update; sample_status_update])
           [sample_status_update; sample_status_update] sample_state); reflexivity.
Defined.

Lemma whatsapp_webhook_text_without_body_witness :
  sample_webhook sample_generate_ok (sample_envelope_of [sample_broken_text])
    sample_state =
  (Ok (mkReply (PStr "error") 500), sample_state).
Proof.
  apply (whatsapp_webhook_text_without_body sample_store_id sample_token sample_phone_id
           sample_Part_accepts sample_generate_ok sample_requests_post sample_py_format
           (sample_envelope_of [sample_broken_text]) sample_broken_text sample_state);
    reflexivity.
Defined.

Lemma whatsapp_webhook_refused_text_witness :
  sample_webhook sample_generate_ok (sample_envelope_of [sample_numeric_text])
    sample_state =
  (Ok (mkReply (PStr "error") 500), sample_state).
Proof.
  apply (whatsapp_webhook_refused_text sample_store_id sample_token sample_phone_id
           sample_Part_accepts sample_generate_ok sample_requests_post sample_py_format
           (sample_envelope_of [sample_numeric_text]) sample_numeric_text
           "51999" (PInt 42) sample_state); reflexivity.
Defined.

Lemma whatsapp_webhook_unsupported_type_witness :
  exists st',
    sample_webhook sample_generate_ok (sample_envelope_of [sample_sticker]) sample_state =
      (Ok (mkReply (PStr "EVENT_RECEIVED") 200), st') /\
    conversations st' !! KStr "51999" =
      Some (sample_turns ++
            [mkTurn "user" (PStr "[Tipo de mensaje sticker no soportado por ahora]");
             mkTurn "model" (PStr "Hola")])%list /\
    deliveries (trace st') = [(PStr "51999", PStr "Hola")].
Proof.
  apply (whatsapp_webhook_unsupported_type sample_store_id sample_token sample_phone_id
           sample_Part_accepts sample_generate_ok sample_requests_post sample_py_format
           (sample_envelope_of [sample_sticker]) sample_sticker "51999" (PStr "sticker")
           sample_state (PStr "Hola")); reflexivity.
Defined.

Lemma whatsapp_webhook_keeps_earlier_effects_witness :
  exists st',
    sample_webhook sample_generate_ok
      (sample_envelope_of [sample_message; sample_broken_text]) sample_state =
      (Ok (mkReply (PStr "error") 500), st') /\
    conversations st' !! KStr "51999" =
      Some (sample_turns ++
            [mkTurn "user" (PStr "Precio?"); mkTurn "model" (PStr "Hola")])%list /\
    deliveries (trace st') = [(PStr "51999", PStr "Hola")].
Proof.
  apply (whatsapp_webhook_keeps_earlier_effects sample_store_id sample_token
           sample_phone_id sample_Part_accepts sample_generate_ok sample_requests_post
           sample_py_format (sample_envelope_of [sample_message; sample_broken_text])
           sample_message sample_broken_text "51999" (PStr "Precio?") sample_state
           (PStr "Hola")); reflexivity.
Defined.

Lemma whatsapp_webhook_non_object_payload_witness :
  sample_webhook sample_generate_ok (PList [sample_envelope]) sample_state =
  (Ok (mkReply (PStr "error") 500), sample_state).
Proof.
  apply (whatsapp_webhook_non_object_payload sample_store_id sample_token sample_phone_id
           sample_Part_accepts sample_generate_ok sample_requests_post sample_py_format
           (PList [sample_envelope]) sample_state); [by intros p|reflexivity].
Defined.

Lemma whatsapp_webhook_without_entries_witness :
  sample_webhook sample_generate_ok
    (PDict {[ "object" := PStr "whatsapp_business_account" ]}) sample_state =
  (Ok (mkReply (PStr "EVENT_RECEIVED") 200), sample_state).
Proof.
  apply (whatsapp_webhook_without_entries sample_store_id sample_token sample_phone_id
           sample_Part_accepts sample_generate_ok sample_requests_post sample_py_format
           {[ "object" := PStr "whatsapp_business_account" ]} sample_state);
    reflexivity.
Defined.

Lemma procesar_touches_one_sender_witness :
  conversations
    (sample_procesar sample_generate_fails (PStr "51888") (PStr "Hola?") sample_state).2
    !! KStr "51999" = Some sample_turns /\
  session
    (sample_procesar sample_generate_fails (PStr "51888") (PStr "Hola?") sample_state).2 =
    session sample_state.
Proof.
  apply (procesar_touches_one_sender sample_store_id sample_Part_accepts
           sample_generate_fails (PStr "51888") (PStr "Hola?") sample_state
           (KStr "51999")).
  discriminate.
Defined.

Lemma procesar_carries_history_witness :
  generations
    (trace (sample_procesar sample_generate_ok (PStr "51999") (PStr "Y el desayuno?")
              (sample_procesar sample_generate_ok (PStr "51999") (PStr "Precio?")
                 sample_state).2).2) =
  [sender_request sample_store_id sample_turns (PStr "Precio?");
   sender_request sample_store_id
     (sample_turns ++ [mkTurn "user" (PStr "Precio?"); mkTurn "model" (PStr "Hola")])
     (PStr "Y el desayuno?")].
Proof.
  apply (procesar_carries_history sample_store_id sample_Part_accepts sample_generate_ok
           (PStr "51999") (KStr "51999") (PStr "Precio?") (PStr "Y el desayuno?")
           sample_state (PStr "Hola")); reflexivity.
Defined.

Lemma procesar_restarts_after_failure_witness :
  generations
    (trace (sample_procesar sample_generate_fails (PStr "51999") (PStr "Y el desayuno?")
              (sample_procesar sample_generate_fails (PStr "51999") (PStr "Precio?")
                 sample_state).2).2) =
  [sender_request sample_store_id sample_turns (PStr "Precio?");
   sender_request sample_store_id [] (PStr "Y el desayuno?")] /\
  gen_contents (sender_request sample_store_id [] (PStr "Y el desayuno?")) =
    [mkContent "user" [mkPart (PStr "Y el desayuno?")]].
Proof.
  apply (procesar_restarts_after_failure sample_store_id sample_Part_accepts
           sample_generate_fails (PStr "51999") (KStr "51999") (PStr "Precio?")
           (PStr "Y el desayuno?") sample_state
           (Exn ExternalError "429 RESOURCE_EXHAUSTED")); reflexivity.
Defined.
